(** * Kanboard MCP server: the API client's connection and execution layer

    A shallow embedding of [src/kanboard_mcp/config.py] (URL normalisation
    and the retry policy's validators) and of [src/kanboard_mcp/client.py]
    (session management, the retry loop, the diagnostic operations),
    followed by the properties of the design document that concern them.

    Python strings are modelled as [string] (sequences of code units),
    Python integers as [Z], the retry delay as a binary64 float.  Python
    exceptions are values of type [exc]; a computation that can raise is a
    function from the client's state to an outcome and a new state, so the
    mutations done before a [raise] stay visible after it, as in Python. *)

From Stdlib Require Import String Ascii List ZArith Lia Bool DecimalString Floats.
Import ListNotations.
Local Open Scope string_scope.
Local Open Scope Z_scope.

(** ** Python string operations used by the sources *)

Module PyStr.

(** [s.startswith(p)] *)
Definition startswith (p s : string) : bool := String.prefix p s.

(** [s.endswith(suf)]: some tail of [s] is [suf]. *)
Fixpoint endswith (suf s : string) : bool :=
  if String.eqb s suf then true
  else match s with
       | EmptyString => false
       | String _ s' => endswith suf s'
       end.

(** [sub in s] *)
Fixpoint contains (sub s : string) : bool :=
  if String.prefix sub s then true
  else match s with
       | EmptyString => false
       | String _ s' => contains sub s'
       end.

(** [c.lower()] on one code unit: [A]..[Z] go to [a]..[z]; every other
    code unit (in particular every byte of a multi-byte UTF-8 sequence)
    is left alone. *)
Definition lower_ascii (c : ascii) : ascii :=
  let n := nat_of_ascii c in
  if ((65 <=? n) && (n <=? 90))%nat then ascii_of_nat (n + 32) else c.

(** [s.lower()] *)
Fixpoint lower (s : string) : string :=
  match s with
  | EmptyString => EmptyString
  | String c s' => String (lower_ascii c) (lower s')
  end.

(** [str(n)] for an integer. *)
Definition of_int (n : Z) : string := NilZero.string_of_int (Z.to_int n).

(** [not s]: the empty string is the only falsy string. *)
Definition falsy (s : string) : bool :=
  match s with EmptyString => true | _ => false end.

(** A code unit that continues a multi-byte UTF-8 sequence. *)
Definition is_continuation (c : ascii) : bool :=
  let n := nat_of_ascii c in ((128 <=? n) && (n <? 192))%nat.

(** [len(s)]: the number of code points, each counted at the code unit
    that starts it. *)
Fixpoint len (s : string) : nat :=
  match s with
  | EmptyString => O
  | String c s' => ((if is_continuation c then 0 else 1) + len s')%nat
  end.

End PyStr.

(** ** Python values and exceptions *)

(** The parsed responses of the remote API: JSON values. *)
#[local] Unset Elimination Schemes.
Inductive value : Type :=
| VNone
| VBool (b : bool)
| VInt (n : Z)
| VStr (s : string)
| VList (items : list value)
| VDict (entries : list (string * value)).
#[local] Set Elimination Schemes.

(** The exception classes that occur.  [kanboard_ClientError] is the
    transport library's [kanboard.ClientError]; the four [Kanboard...]
    classes are declared in [client.py], the last three as subclasses of
    [KanboardClientError]; every class here derives from [Exception]. *)
Inductive exc_class : Type :=
| kanboard_ClientError
| KanboardClientError
| KanboardConnectionError
| KanboardAuthenticationError
| KanboardAPIError
| AttributeError
| ValueError
| OtherException (name : string).

(** An exception instance: its class, [str(e)], and its [code] attribute
    when it has one ([hasattr(e, 'code')]), an integer.  Only instances
    of [Exception] are modelled: what the [except Exception] clauses of
    the sources do not catch (a keyboard interrupt, an exit request) is
    outside the model. *)
Record exc : Type := mkExc {
  exc_cls : exc_class;
  exc_str : string;
  exc_code : option Z
}.

Definition new_exc (c : exc_class) (msg : string) : exc := mkExc c msg None.

(** [isinstance(e, kanboard.ClientError)] *)
Definition is_kanboard_ClientError (e : exc) : bool :=
  match exc_cls e with kanboard_ClientError => true | _ => false end.

(** [isinstance(e, KanboardClientError)]: the base class or one of its
    three subclasses. *)
Definition is_KanboardClientError (e : exc) : bool :=
  match exc_cls e with
  | KanboardClientError | KanboardConnectionError
  | KanboardAuthenticationError | KanboardAPIError => true
  | _ => false
  end.

(** [isinstance(e, Exception)] *)
Definition is_Exception (e : exc) : bool := true.

(** The outcome of a Python call: a value or a raised exception. *)
Inductive result (A : Type) : Type :=
| Ok (a : A)
| Raise (e : exc).
Arguments Ok {A} a.
Arguments Raise {A} e.

(** ** config.py *)

Module Config.

(** [v.startswith(('http://', 'https://'))] *)
Definition has_http_scheme (v : string) : bool :=
  PyStr.startswith "http://" v || PyStr.startswith "https://" v.

(** [KanboardConfig.validate_url] *)
Definition validate_url (v : string) : result string :=
  if PyStr.falsy v then
    Raise (new_exc ValueError "Kanboard URL is required")
  else if negb (has_http_scheme v) then
    Raise (new_exc ValueError "URL must start with http:// or https://")
  else if negb (PyStr.endswith "/jsonrpc.php" v) then
    if PyStr.endswith "/" v then Ok (v ++ "jsonrpc.php")
    else Ok (v ++ "/jsonrpc.php")
  else Ok v.

(** [KanboardConfig.validate_password] *)
Definition validate_password (v : string) : result string :=
  if PyStr.falsy v then
    Raise (new_exc ValueError "API token or password is required")
  else Ok v.

(** [KanboardConfig.validate_timeout] *)
Definition validate_timeout (v : Z) : result Z :=
  if v <=? 0 then Raise (new_exc ValueError "Timeout must be positive")
  else Ok v.

(** [MCPServerConfig.validate_max_retries] *)
Definition validate_max_retries (v : Z) : result Z :=
  if v <? 0 then Raise (new_exc ValueError "Max retries must be non-negative")
  else Ok v.

(** [MCPServerConfig.validate_retry_delay] *)
Definition validate_retry_delay (v : float) : result float :=
  if PrimFloat.ltb v 0%float then
    Raise (new_exc ValueError "Retry delay must be non-negative")
  else Ok v.

(** [class KanboardConfig] *)
Record KanboardConfig : Type := mkKanboardConfig {
  url : string;
  username : string;
  password : string;
  auth_header : option string;
  verify_ssl : bool;
  timeout : Z
}.

(** [class MCPServerConfig] *)
Record MCPServerConfig : Type := mkMCPServerConfig {
  server_name : string;
  server_version : string;
  debug : bool;
  max_retries : Z;
  retry_delay : float
}.

(** [class Config] *)
Record Config : Type := mkConfig {
  kanboard : KanboardConfig;
  server : MCPServerConfig
}.

(** *** Loading the configuration from the environment *)

(** [os.environ]: the value of a variable, when it is set. *)
Definition environ : Type := string -> option string.

(** [os.getenv(name, default)] *)
Definition getenv (env : environ) (name default : string) : string :=
  match env name with
  | Some v => v
  | None => default
  end.

(** Sequencing of calls that may raise. *)
Definition and_then {A B : Type} (r : result A) (k : A -> result B) : result B :=
  match r with
  | Ok a => k a
  | Raise e => Raise e
  end.

Section Loading.

(** [int(s)] and [float(s)] on a string are the interpreter's, and the
    text of the [ValidationError] that a model raises for the failures of
    its validators is the validation library's. *)
Variable int_of_str : string -> result Z.
Variable float_of_str : string -> result float.
Variable validation_message : string -> list (string * exc) -> string.

(** The failure of a field's validator, under the field's name. *)
Definition field_error {A : Type} (field : string) (r : result A)
    : list (string * exc) :=
  match r with
  | Ok _ => []
  | Raise e => [ (field, e) ]
  end.

(** What constructing a model raises when validators failed. *)
Definition ValidationError (model : string) (errors : list (string * exc)) : exc :=
  new_exc (OtherException "ValidationError") (validation_message model errors).

(** [KanboardConfig(url=..., ...)]: the validators run on their fields,
    in the order of the fields; the model is built from what they return
    when none fails, and otherwise all failures are raised together. *)
Definition new_KanboardConfig (url_ username_ password_ : string)
    (auth_header_ : option string) (verify_ssl_ : bool) (timeout_ : Z)
    : result KanboardConfig :=
  match validate_url url_, validate_password password_, validate_timeout timeout_ with
  | Ok u, Ok p, Ok t => Ok (mkKanboardConfig u username_ p auth_header_ verify_ssl_ t)
  | ru, rp, rt =>
      Raise (ValidationError "KanboardConfig"
               (field_error "url" ru ++ field_error "password" rp
                ++ field_error "timeout" rt))
  end.

(** [MCPServerConfig(server_name=..., ...)] *)
Definition new_MCPServerConfig (server_name_ server_version_ : string)
    (debug_ : bool) (max_retries_ : Z) (retry_delay_ : float)
    : result MCPServerConfig :=
  match validate_max_retries max_retries_, validate_retry_delay retry_delay_ with
  | Ok n, Ok d => Ok (mkMCPServerConfig server_name_ server_version_ debug_ n d)
  | rn, rd =>
      Raise (ValidationError "MCPServerConfig"
               (field_error "max_retries" rn ++ field_error "retry_delay" rd))
  end.

(** [Config.from_env]: the arguments of each constructor are evaluated
    before it is called, so a number that does not parse is raised
    before any validator runs. *)
Definition from_env (env : environ) : result Config :=
  and_then (int_of_str (getenv env "KANBOARD_TIMEOUT" "30")) (fun timeout_ =>
  and_then (new_KanboardConfig
              (getenv env "KANBOARD_URL" "")
              (getenv env "KANBOARD_USERNAME" "jsonrpc")
              (getenv env "KANBOARD_API_TOKEN" "")
              (env "KANBOARD_AUTH_HEADER")
              (String.eqb (PyStr.lower (getenv env "KANBOARD_VERIFY_SSL" "true")) "true")
              timeout_) (fun kanboard_config =>
  and_then (int_of_str (getenv env "KANBOARD_MAX_RETRIES" "3")) (fun max_retries_ =>
  and_then (float_of_str (getenv env "KANBOARD_RETRY_DELAY" "1.0")) (fun retry_delay_ =>
  and_then (new_MCPServerConfig
              (getenv env "MCP_SERVER_NAME" "Kanboard MCP Server")
              (getenv env "MCP_SERVER_VERSION" "0.1.0")
              (String.eqb (PyStr.lower (getenv env "DEBUG" "false")) "true")
              max_retries_ retry_delay_) (fun server_config =>
  Ok (mkConfig kanboard_config server_config)))))).

(** [Config.validate_config] *)
Definition validate_config (c : Config) : result unit :=
  if PyStr.falsy (url (kanboard c)) then
    Raise (new_exc ValueError "KANBOARD_URL environment variable is required")
  else if PyStr.falsy (password (kanboard c)) then
    Raise (new_exc ValueError "KANBOARD_API_TOKEN environment variable is required")
  else Ok tt.

(** [load_config] *)
Definition load_config (env : environ) : result Config :=
  match and_then (from_env env) (fun c =>
        and_then (validate_config c) (fun _ => Ok c)) with
  | Ok c => Ok c
  | Raise e => Raise (new_exc ValueError ("Configuration error: " ++ exc_str e))
  end.

End Loading.

(** An environment given as a list of settings. *)
Definition environ_of (settings : list (string * string)) : environ :=
  fun name =>
    match find (fun kv => String.eqb (fst kv) name) settings with
    | Some kv => Some (snd kv)
    | None => None
    end.

(** A reading of the decimal numerals without sign, blanks or
    underscores, on which it agrees with [int(s)]; other strings are
    refused. *)
Fixpoint digits_value (acc : Z) (s : string) : option Z :=
  match s with
  | EmptyString => Some acc
  | String c s' =>
      let n := Z.of_nat (nat_of_ascii c) in
      if (48 <=? n) && (n <=? 57) then digits_value (10 * acc + (n - 48)) s'
      else None
  end.

Definition sample_int_of_str (s : string) : result Z :=
  match s with
  | EmptyString => Raise (new_exc ValueError "invalid literal for int()")
  | _ =>
      match digits_value 0 s with
      | Some n => Ok n
      | None => Raise (new_exc ValueError "invalid literal for int()")
      end
  end.

(** A reading of a few spellings of delays, on which it agrees with
    [float(s)]; other strings are refused. *)
Definition sample_float_of_str (s : string) : result float :=
  if String.eqb s "1.0" then Ok 1%float
  else if String.eqb s "0" then Ok 0%float
  else if String.eqb s "0.5" then Ok 0.5%float
  else if String.eqb s "nan" then Ok nan
  else Raise (new_exc ValueError "could not convert string to float").

(** A rendering of validation failures: the model and the fields. *)
Definition sample_validation_message (model : string)
    (errors : list (string * exc)) : string :=
  model ++ ": " ++ String.concat ", " (map fst errors).

End Config.

(** ** client.py *)

Module Client.

Import Config.

(** The records handed to [logger]; the rendering of a record into text
    is the logging framework's and is not modelled. *)
Inductive log_record : Type :=
| LogCreateFailed (e : exc)
| LogConnected (name : value)
| LogConnectApiError (e : exc)
| LogConnectUnexpected (e : exc)
| LogDisconnected
| LogCallSucceeded (method_name : string) (attempt_no : Z)
| LogApiError (method_name : string) (attempt_no : Z) (e : exc)
| LogClientError (method_name : string) (attempt_no : Z) (e : exc)
| LogUnexpected (method_name : string) (attempt_no : Z) (e : exc)
| LogCallApiUnexpected (method_name : string) (e : exc).

Inductive log_level : Type := DEBUG | INFO | WARNING | ERROR.

(** Where a call on the transport handle is made: the identity check
    [self._client.get_me()] of [connect], or the invocation
    [method] applied to the caller's arguments in the retry loop. *)
Inductive call_site : Type := IdentityCheck | ApiCall.

(** What a run does to the outside, in order. *)
Inductive event : Type :=
| EvCreate
| EvInvoke (site : call_site) (method_name : string)
           (args : list value) (kwargs : list (string * value))
| EvSleep (seconds : float)
| EvLog (level : log_level) (record : log_record).

(** The transport the client is written against ([kanboard.Client] or a
    test double): a constructor, attribute lookup on a handle, and the
    call of a looked-up method.  [World] is whatever decides the
    transport's answers (the network, the remote server, a script).
    With it comes the clock of the interpreter: [sleep_error d] is what
    [time.sleep(d)] raises instead of sleeping, if it raises.  Which
    delays it refuses, and with which error, is the interpreter's and the
    platform's to decide, not the client's. *)
Class Transport (World Handle : Type) : Type := {
  new_client :
    string -> string -> string -> string -> bool ->
    World -> result Handle * World;
  handle_type_name : Handle -> string;
  has_attr : Handle -> string -> bool;
  invoke :
    Handle -> string -> list value -> list (string * value) ->
    World -> result value * World;
  sleep_error : float -> option exc
}.

Section WithTransport.

Context {World Handle : Type} {transport : Transport World Handle}.

(** [self.config], immutable after construction. *)
Variable config : Config.

(** The client instance's mutable fields, the outside world, and the
    events so far. *)
Record state : Type := mkState {
  _client : option Handle;
  _connected : bool;
  world : World;
  trace : list event
}.

(** [KanboardClient.__init__] *)
Definition init (w : World) : state := mkState None false w [].

(** Computations that read and write the state and may raise. *)
Definition M (A : Type) : Type := state -> result A * state.

Definition ret {A} (a : A) : M A := fun s => (Ok a, s).

Definition bind {A B} (c : M A) (k : A -> M B) : M B :=
  fun s => match c s with
           | (Ok a, s') => k a s'
           | (Raise e, s') => (Raise e, s')
           end.

Definition raise {A} (e : exc) : M A := fun s => (Raise e, s).

Declare Scope py_scope.
Delimit Scope py_scope with py.
Notation "x <- c ;; k" := (bind c (fun x => k))
  (at level 61, c at next level, right associativity) : py_scope.
Notation "c ;; k" := (bind c (fun _ => k))
  (at level 61, right associativity) : py_scope.
Local Open Scope py_scope.

(** [try: body / except C1 as e: h1 / except C2 as e: h2 ...]: the
    first clause whose class test accepts the exception handles it;
    an exception raised by a handler is not caught by its siblings. *)
Definition try_except {A} (body : M A)
    (clauses : list ((exc -> bool) * (exc -> M A))) : M A :=
  fun s => match body s with
           | (Ok a, s') => (Ok a, s')
           | (Raise e, s') =>
               match find (fun c => fst c e) clauses with
               | Some c => snd c e s'
               | None => (Raise e, s')
               end
           end.

Definition emit (ev : event) : M unit :=
  fun s => (Ok tt, mkState (_client s) (_connected s) (world s) (trace s ++ [ev])).

Definition log (l : log_level) (r : log_record) : M unit := emit (EvLog l r).

(** [time.sleep(seconds)]: raises what the clock refuses the delay with,
    and sleeps otherwise. *)
Definition sleep (seconds : float) : M unit :=
  match sleep_error seconds with
  | Some e => raise e
  | None => emit (EvSleep seconds)
  end.

Definition set_client (c : option Handle) : M unit :=
  fun s => (Ok tt, mkState c (_connected s) (world s) (trace s)).

Definition set_connected (b : bool) : M unit :=
  fun s => (Ok tt, mkState (_client s) b (world s) (trace s)).

Definition get_client : M (option Handle) := fun s => (Ok (_client s), s).

Definition get_connected : M bool := fun s => (Ok (_connected s), s).

(** A step of the outside world, recorded as [ev]. *)
Definition external {A} (ev : event) (f : World -> result A * World) : M A :=
  fun s => let (r, w') := f (world s) in
           (r, mkState (_client s) (_connected s) w' (trace s ++ [ev])).

(** The [AttributeError] of a failed [getattr(h, name)]. *)
Definition attribute_error (h : Handle) (name : string) : exc :=
  new_exc AttributeError
    ("'" ++ handle_type_name h ++ "' object has no attribute '" ++ name ++ "'").

(** [getattr(h, name)] applied to the arguments: a failed lookup raises
    [AttributeError] before anything is sent. *)
Definition call_method (site : call_site) (h : Handle) (name : string)
    (args : list value) (kwargs : list (string * value)) : M value :=
  if has_attr h name then
    external (EvInvoke site name args kwargs) (invoke h name args kwargs)
  else
    raise (attribute_error h name).

(** [type(v).__name__] *)
Definition value_type_name (v : value) : string :=
  match v with
  | VNone => "NoneType"
  | VBool _ => "bool"
  | VInt _ => "int"
  | VStr _ => "str"
  | VList _ => "list"
  | VDict _ => "dict"
  end.

Fixpoint assoc (key : string) (entries : list (string * value)) : option value :=
  match entries with
  | [] => None
  | (k, v) :: rest => if String.eqb k key then Some v else assoc key rest
  end.

(** [v.get(key, default)]: only a dict has the method. *)
Definition value_get (v : value) (key : string) (default : value) : M value :=
  match v with
  | VDict entries =>
      ret (match assoc key entries with Some x => x | None => default end)
  | _ =>
      raise (new_exc AttributeError
               ("'" ++ value_type_name v ++ "' object has no attribute 'get'"))
  end.

(** [kanboard.Client(url=..., username=..., password=..., auth_header=...,
    insecure=...)] with the arguments [_create_client] passes. *)
Definition open_client : World -> result Handle * World :=
  new_client
    (url (kanboard config))
    (username (kanboard config))
    (password (kanboard config))
    (match auth_header (kanboard config) with
     | Some h => if PyStr.falsy h then "Authorization" else h
     | None => "Authorization"
     end)
    (negb (verify_ssl (kanboard config))).

(** [KanboardClient._create_client] *)
Definition _create_client : M Handle :=
  try_except
    (external EvCreate open_client)
    [ (is_Exception, fun e =>
         log ERROR (LogCreateFailed e) ;;
         raise (new_exc KanboardConnectionError
                  ("Failed to create Kanboard client: " ++ exc_str e))) ].

(** [KanboardClient.connect] *)
Definition connect : M unit :=
  connected <- get_connected ;;
  client <- get_client ;;
  if connected && (match client with Some _ => true | None => false end) then
    ret tt
  else
    try_except
      (h <- _create_client ;;
       set_client (Some h) ;;
       result <- call_method IdentityCheck h "get_me" [] [] ;;
       match result with
       | VNone =>
           raise (new_exc KanboardAuthenticationError
                    "Authentication failed - invalid credentials")
       | _ =>
           set_connected true ;;
           name <- value_get result "name" (VStr "Unknown") ;;
           log INFO (LogConnected name)
       end)
      [ (is_kanboard_ClientError, fun e =>
           log ERROR (LogConnectApiError e) ;;
           raise (new_exc KanboardAuthenticationError
                    ("Authentication failed: " ++ exc_str e)));
        (is_Exception, fun e =>
           log ERROR (LogConnectUnexpected e) ;;
           raise (new_exc KanboardConnectionError
                    ("Connection failed: " ++ exc_str e))) ].

(** [KanboardClient.disconnect] *)
Definition disconnect : M unit :=
  set_client None ;;
  set_connected false ;;
  log INFO LogDisconnected.

(** [KanboardClient.is_connected] *)
Definition is_connected (s : state) : bool :=
  _connected s && (match _client s with Some _ => true | None => false end).

(** [range(n)] *)
Definition range (n : Z) : list Z := map Z.of_nat (seq 0 (Z.to_nat n)).

(** How one pass through the loop body ends when it does not raise:
    by the [return] of the [try] block, or by falling out of an
    [except] clause with [last_exception] assigned. *)
Inductive flow : Type :=
| Returned (v : value)
| FellThrough (last_exception : option exc).

(** ["authentication" in str(e).lower() or "unauthorized" in str(e).lower()] *)
Definition mentions_auth (e : exc) : bool :=
  PyStr.contains "authentication" (PyStr.lower (exc_str e))
  || PyStr.contains "unauthorized" (PyStr.lower (exc_str e)).

(** [hasattr(e, 'code') and 400 <= e.code < 500] *)
Definition has_4xx_code (e : exc) : bool :=
  match exc_code e with
  | Some c => (400 <=? c) && (c <? 500)
  | None => false
  end.

(** The four error kinds of the design, as the retry loop tells them
    apart: a [kanboard.ClientError] is an authentication failure when its
    message says so, else an API error when it carries a 4xx code, else a
    connection-class failure; any other exception is the catch-all kind. *)
Inductive error_kind : Type :=
| AuthenticationKind
| APIKind
| ConnectionKind
| ClientKind.

Definition classify (e : exc) : error_kind :=
  if is_kanboard_ClientError e then
    if mentions_auth e then AuthenticationKind
    else if has_4xx_code e then APIKind
    else ConnectionKind
  else ClientKind.

(** The kinds the loop goes on after. *)
Definition retryable (e : exc) : bool :=
  match classify e with
  | ConnectionKind | ClientKind => true
  | AuthenticationKind | APIKind => false
  end.

(** The error the first clause raises for a failure of a kind the loop
    does not go on after. *)
Definition terminal_error (e : exc) : exc :=
  match classify e with
  | AuthenticationKind =>
      new_exc KanboardAuthenticationError ("Authentication failed: " ++ exc_str e)
  | _ => new_exc KanboardAPIError ("API error: " ++ exc_str e)
  end.

(** The three [except] clauses of the retry loop, in source order.
    The second names the same class as the first. *)
Definition retry_clauses (method_name : string) (attempt : Z)
    : list ((exc -> bool) * (exc -> M flow)) :=
  [ (is_kanboard_ClientError, fun e =>
       log WARNING (LogApiError method_name (attempt + 1) e) ;;
       if mentions_auth e then
         raise (new_exc KanboardAuthenticationError
                  ("Authentication failed: " ++ exc_str e))
       else if has_4xx_code e then
         raise (new_exc KanboardAPIError ("API error: " ++ exc_str e))
       else ret (FellThrough (Some e)));
    (is_kanboard_ClientError, fun e =>
       log WARNING (LogClientError method_name (attempt + 1) e) ;;
       try_except (disconnect ;; connect) [ (is_Exception, fun _ => ret tt) ] ;;
       ret (FellThrough (Some e)));
    (is_Exception, fun e =>
       log ERROR (LogUnexpected method_name (attempt + 1) e) ;;
       ret (FellThrough (Some e))) ].

(** The body of the [for] loop up to the end of the [try] statement. *)
Definition attempt_once (method_name : string) (args : list value)
    (kwargs : list (string * value)) (attempt : Z) : M flow :=
  try_except
    (client <- get_client ;;
     match client with
     | None => raise (new_exc KanboardConnectionError "Client not connected")
     | Some h =>
         result <- call_method ApiCall h method_name args kwargs ;;
         (if debug (server config)
          then log DEBUG (LogCallSucceeded method_name (attempt + 1))
          else ret tt) ;;
         ret (Returned result)
     end)
    (retry_clauses method_name attempt).

(** [for attempt in attempts: ...]: the loop of [_execute_with_retry];
    [inl v] when the body returned [v], [inr last_exception] when the
    attempts ran out. *)
Fixpoint retry_loop (method_name : string) (args : list value)
    (kwargs : list (string * value)) (attempts : list Z)
    (last_exception : option exc) : M (value + option exc) :=
  match attempts with
  | [] => ret (inr last_exception)
  | attempt :: rest =>
      r <- attempt_once method_name args kwargs attempt ;;
      match r with
      | Returned v => ret (inl v)
      | FellThrough last_exception' =>
          (if attempt <? max_retries (server config)
           then sleep (retry_delay (server config))
           else ret tt) ;;
          retry_loop method_name args kwargs rest last_exception'
      end
  end.

(** The messages of the errors raised when the attempts ran out. *)
Definition exhausted_error (method_name : string) (last_exception : option exc) : exc :=
  let n := PyStr.of_int (max_retries (server config) + 1) in
  match last_exception with
  | Some e =>
      if is_kanboard_ClientError e then
        new_exc KanboardAPIError
          ("API call " ++ method_name ++ " failed after " ++ n ++ " attempts: " ++ exc_str e)
      else if is_kanboard_ClientError e then
        new_exc KanboardConnectionError
          ("Connection failed for " ++ method_name ++ " after " ++ n ++ " attempts: " ++ exc_str e)
      else
        new_exc KanboardClientError
          ("Unexpected error in " ++ method_name ++ " after " ++ n ++ " attempts: " ++ exc_str e)
  | None =>
      new_exc KanboardClientError
        ("Method " ++ method_name ++ " failed after " ++ n ++ " attempts")
  end.

(** [if not self.is_connected(): self.connect()] *)
Definition ensure_connected : M unit :=
  fun s => if negb (is_connected s) then connect s else ret tt s.

(** [KanboardClient._execute_with_retry] *)
Definition _execute_with_retry (method_name : string) (args : list value)
    (kwargs : list (string * value)) : M value :=
  ensure_connected ;;
  r <- retry_loop method_name args kwargs
         (range (max_retries (server config) + 1)) None ;;
  match r with
  | inl v => ret v
  | inr last_exception => raise (exhausted_error method_name last_exception)
  end.

(** [KanboardClient.call_api] *)
Definition call_api (method_name : string) (args : list value)
    (kwargs : list (string * value)) : M value :=
  try_except (_execute_with_retry method_name args kwargs)
    [ (is_KanboardClientError, fun e => raise e);
      (is_Exception, fun e =>
         log ERROR (LogCallApiUnexpected method_name e) ;;
         raise (new_exc KanboardClientError ("Unexpected error: " ++ exc_str e))) ].

(** [KanboardClient.test_connection] *)
Definition test_connection : M value :=
  try_except
    (result <- call_api "get_me" [] [] ;;
     ret (VDict [ ("connected", VBool true);
                  ("user", result);
                  ("server_url", VStr (url (kanboard config)));
                  ("username", VStr (username (kanboard config))) ]))
    [ (is_Exception, fun e =>
         ret (VDict [ ("connected", VBool false);
                      ("error", VStr (exc_str e));
                      ("server_url", VStr (url (kanboard config)));
                      ("username", VStr (username (kanboard config))) ])) ].

(** [KanboardClient.get_server_info] *)
Definition get_server_info : M value :=
  try_except
    (user_info <- call_api "get_me" [] [] ;;
     version <- call_api "get_version" [] [] ;;
     ret (VDict [ ("server_version", version);
                  ("user_info", user_info);
                  ("api_url", VStr (url (kanboard config)));
                  ("connected", VBool true) ]))
    [ (is_Exception, fun e =>
         ret (VDict [ ("server_version", VNone);
                      ("user_info", VNone);
                      ("api_url", VStr (url (kanboard config)));
                      ("connected", VBool false);
                      ("error", VStr (exc_str e)) ])) ].

(** *** Observations on traces *)

Definition is_api_call (ev : event) : bool :=
  match ev with EvInvoke ApiCall _ _ _ => true | _ => false end.

Definition is_identity_check (ev : event) : bool :=
  match ev with EvInvoke IdentityCheck _ _ _ => true | _ => false end.

Definition is_sleep (ev : event) : bool :=
  match ev with EvSleep _ => true | _ => false end.

Definition is_disconnect (ev : event) : bool :=
  match ev with EvLog _ LogDisconnected => true | _ => false end.

Definition is_create (ev : event) : bool :=
  match ev with EvCreate => true | _ => false end.

Definition is_failure_log (ev : event) : bool :=
  match ev with
  | EvLog _ (LogApiError _ _ _) | EvLog _ (LogClientError _ _ _)
  | EvLog _ (LogUnexpected _ _ _) => true
  | _ => false
  end.

Definition count (p : event -> bool) (t : list event) : nat :=
  length (filter p t).

(** The invocations of the requested method by the retry loop. *)
Definition invocations (t : list event) : nat := count is_api_call t.

(** The reconnect attempts: each starts with a [disconnect], which logs
    that it ran. *)
Definition reconnects (t : list event) : nat := count is_disconnect t.

Definition sleeps (t : list event) : nat := count is_sleep t.

(** The events a pass of the retry loop may add: none of them belongs to
    a connect or a disconnect. *)
Definition loop_events (d : list event) : Prop :=
  reconnects d = 0%nat /\ count is_identity_check d = 0%nat
  /\ count is_create d = 0%nat.

(** [s] with [evs] appended to its trace. *)
Definition record (s : state) (evs : list event) : state :=
  mkState (_client s) (_connected s) (world s) (trace s ++ evs).

(** The answers of the transport to [n] successive invocations of one
    method with the same arguments, from the world [w] on. *)
Fixpoint answers (h : Handle) (method_name : string) (args : list value)
    (kwargs : list (string * value)) (n : nat) (w : World) : list (result value) :=
  match n with
  | O => []
  | S n' =>
      let (r, w') := invoke h method_name args kwargs w in
      r :: answers h method_name args kwargs n' w'
  end.

(** An answer that is a failure of a kind the loop goes on after. *)
Definition retryable_failure (r : result value) : bool :=
  match r with
  | Raise e => retryable e
  | Ok _ => false
  end.



(** *** The context manager and the factory *)

(** [KanboardClient.__enter__]: connects; the client itself is what the
    [with] statement binds. *)
Definition __enter__ : M unit := connect.

(** [KanboardClient.__exit__]: disconnects and returns [None], so an
    exception of the block is not suppressed. *)
Definition __exit__ : M unit := disconnect.

(** [with client: body]: the block runs only when [__enter__] returned;
    [__exit__] runs however the block ended, and the block's outcome is
    the statement's unless [__exit__] raises itself. *)
Definition with_client {A} (body : M A) : M A :=
  __enter__ ;;
  (fun s =>
     let (r, s1) := body s in
     match __exit__ s1 with
     | (Ok _, s2) => (r, s2)
     | (Raise e, s2) => (Raise e, s2)
     end).

(** [create_client(config)] *)
Definition create_client (w : World) : state := init w.

(** The session is consistent: the flag is set only with a handle. *)
Definition session_ok (s : state) : Prop :=
  _connected s = true -> _client s <> None.

(** The world after [n] successive invocations of one method with the
    same arguments, from the world [w] on. *)
Fixpoint world_after (h : Handle) (method_name : string) (args : list value)
    (kwargs : list (string * value)) (n : nat) (w : World) : World :=
  match n with
  | O => w
  | S n' =>
      let (_, w') := invoke h method_name args kwargs w in
      world_after h method_name args kwargs n' w'
  end.

(** What an answer that ends the retry loop makes of the call: the value
    is returned, the error is raised in its terminal class. *)
Definition decided (r : result value) : result (value + option exc) :=
  match r with
  | Ok v => Ok (inl v)
  | Raise e => Raise (terminal_error e)
  end.

End WithTransport.

Arguments state World Handle : clear implicits.
Arguments M World Handle A : clear implicits.

(** *** A scripted transport

    A test double in the sense of the design notes: the world is the
    list of answers still to be given to calls on a handle, in order;
    a handle is the list of the method names it exposes. *)

Definition script : Type := list (result value).

Definition scripted_methods : list string :=
  [ "get_me"; "get_version"; "get_all_projects" ].

(** The clock of the scripted world.  It refuses a delay that is not a
    number, and a negative one, as [time.sleep] does; it sleeps a delay
    from zero to an hour; longer delays, whose fate depends on the
    platform, are not scripted. *)
Definition scripted_sleep_error (seconds : float) : option exc :=
  if PrimFloat.is_nan seconds then
    Some (new_exc ValueError "Invalid value NaN (not a number)")
  else if PrimFloat.ltb seconds 0%float then
    Some (new_exc ValueError "sleep length must be non-negative")
  else if PrimFloat.leb seconds 3600%float then None
  else Some (new_exc (OtherException "RuntimeError") "delay not scripted").

#[global] Instance scripted : Transport script (list string) := {|
  new_client := fun _ _ _ _ _ w => (Ok scripted_methods, w);
  handle_type_name := fun _ => "Client";
  has_attr := fun h name => existsb (String.eqb name) h;
  invoke := fun _ _ _ _ w =>
    match w with
    | [] => (Raise (new_exc (OtherException "RuntimeError") "script exhausted"), [])
    | r :: w' => (r, w')
    end;
  sleep_error := scripted_sleep_error
|}.

(** A configuration with [max_retries] and [retry_delay] as given and
    the defaults of [config.py] elsewhere. *)
Definition sample_config (retries : Z) (delay : float) : Config :=
  mkConfig
    (mkKanboardConfig "http://h/jsonrpc.php" "jsonrpc" "token" None true 30)
    (mkMCPServerConfig "Kanboard MCP Server" "0.1.0" false retries delay).

(** A client of the scripted transport that has connected. *)
Definition connected_client (w : script) : state script (list string) :=
  mkState (Some scripted_methods) true w [].

(** Sample answers of the remote side. *)
Definition admin : value := VDict [ ("name", VStr "admin") ].

Definition no_projects : value := VList [].

Definition connection_refused : exc :=
  mkExc kanboard_ClientError "Connection refused" None.

Definition unauthorized : exc :=
  mkExc kanboard_ClientError "401 Unauthorized" None.

Definition not_found : exc :=
  mkExc kanboard_ClientError "Project not found" (Some 404).

Definition type_error : exc :=
  mkExc (OtherException "TypeError") "unexpected keyword argument" None.

(** An exception that is not of the transport's error class although its
    message speaks of authorization. *)
Definition stray_unauthorized : exc :=
  mkExc (OtherException "RuntimeError") "unauthorized" None.

End Client.

(** ** tools/tasks.py and the connection tools of server.py *)

Module Tools.

Import Config Client.

(** [bool(v)] *)
Definition truthy (v : value) : bool :=
  match v with
  | VNone => false
  | VBool b => b
  | VInt n => negb (n =? 0)
  | VStr s => negb (PyStr.falsy s)
  | VList items => match items with [] => false | _ => true end
  | VDict entries => match entries with [] => false | _ => true end
  end.

(** [len(v)]; the entries of a dict are its items, one per key. *)
Definition py_len (v : value) : result Z :=
  match v with
  | VStr s => Ok (Z.of_nat (PyStr.len s))
  | VList items => Ok (Z.of_nat (length items))
  | VDict entries => Ok (Z.of_nat (length entries))
  | _ =>
      Raise (new_exc (OtherException "TypeError")
               ("object of type '" ++ value_type_name v ++ "' has no len()"))
  end.

(** [len(x) if x else 0] *)
Definition count_of (x : value) : result Z :=
  if truthy x then py_len x else Ok 0.

(** [{"success": True, "data": x}] *)
Definition success_data (x : value) : result value :=
  Ok (VDict [ ("success", VBool true); ("data", x) ]).

(** [{"success": True, "data": x, "count": len(x) if x else 0}] *)
Definition success_data_count (x : value) : result value :=
  match count_of x with
  | Ok n => Ok (VDict [ ("success", VBool true); ("data", x); ("count", VInt n) ])
  | Raise e => Raise e
  end.

(** [{"success": True, "data": {key: x}}] *)
Definition success_keyed (key : string) (x : value) : result value :=
  Ok (VDict [ ("success", VBool true); ("data", VDict [ (key, x) ]) ]).

(** [{"success": False, "error": str(e)}] *)
Definition failure (e : exc) : value :=
  VDict [ ("success", VBool false); ("error", VStr (exc_str e)) ].

(** The entry of an optional parameter in the keyword arguments:
    [if x is not None: data[key] = x]. *)
Definition optional {A : Type} (key : string) (inject : A -> value) (x : option A)
    : list (string * value) :=
  match x with
  | Some a => [ (key, inject a) ]
  | None => []
  end.

(** [x is not None] *)
Definition given {A : Type} (x : option A) : bool :=
  match x with Some _ => true | None => false end.

(** The names, in order, of the parameters that were given. *)
Fixpoint given_keys (fields : list (string * bool)) : list string :=
  match fields with
  | [] => []
  | (k, true) :: rest => k :: given_keys rest
  | (_, false) :: rest => given_keys rest
  end.

Definition str_list (items : list string) : value := VList (map VStr items).

(** The [task_data] of [createTask]. *)
Definition create_task_data (project_id : Z) (title : string)
    (description : option string) (category_id owner_id creator_id : option Z)
    (date_due color_id : option string) (column_id swimlane_id priority : option Z)
    (reference : option string) (tags : option (list string))
    : list (string * value) :=
  [ ("project_id", VInt project_id); ("title", VStr title) ]
  ++ optional "description" VStr description
  ++ optional "category_id" VInt category_id
  ++ optional "owner_id" VInt owner_id
  ++ optional "creator_id" VInt creator_id
  ++ optional "date_due" VStr date_due
  ++ optional "color_id" VStr color_id
  ++ optional "column_id" VInt column_id
  ++ optional "swimlane_id" VInt swimlane_id
  ++ optional "priority" VInt priority
  ++ optional "reference" VStr reference
  ++ optional "tags" str_list tags.

(** The [task_data] of [updateTask]. *)
Definition update_task_data (task_id : Z) (title description : option string)
    (category_id owner_id : option Z) (date_due color_id : option string)
    (priority : option Z) (reference : option string)
    : list (string * value) :=
  [ ("id", VInt task_id) ]
  ++ optional "title" VStr title
  ++ optional "description" VStr description
  ++ optional "category_id" VInt category_id
  ++ optional "owner_id" VInt owner_id
  ++ optional "date_due" VStr date_due
  ++ optional "color_id" VStr color_id
  ++ optional "priority" VInt priority
  ++ optional "reference" VStr reference.

(** The [search_params] of [searchTasks]. *)
Definition search_params (project_id : Z) (query : string)
    (category_id owner_id : option Z) (due_date : option string)
    (status_id : option Z) : list (string * value) :=
  [ ("project_id", VInt project_id); ("query", VStr query) ]
  ++ optional "category_id" VInt category_id
  ++ optional "owner_id" VInt owner_id
  ++ optional "due_date" VStr due_date
  ++ optional "status_id" VInt status_id.

Section WithTransport.

Context {World Handle : Type} {transport : Transport World Handle}.

Variable config : Config.

(** The client the tools share, and what the tools' own loggers were
    given. *)
Record tool_state : Type := mkToolState {
  client : Client.state World Handle;
  tool_log : list (log_level * string)
}.

(** Computations of the tools. *)
Definition T (A : Type) : Type := tool_state -> result A * tool_state.

(** [logger.error(msg)] *)
Definition log_error (msg : string) (ts : tool_state) : tool_state :=
  mkToolState (client ts) (tool_log ts ++ [ (ERROR, msg) ]).

(** The body shared by the tools:
    [try: x = client.call_api(...); return wrap(x)]
    [except KanboardClientError as e: logger.error(context + ": " + str(e));
     return failure(e)].
    An exception of another class leaves the tool. *)
Definition tool (method_name : string) (args : list value)
    (kwargs : list (string * value)) (wrap : value -> result value)
    (context : string) : T value :=
  fun ts =>
    let (r, s') := call_api config method_name args kwargs (client ts) in
    let ts' := mkToolState s' (tool_log ts) in
    let attempt := match r with Ok x => wrap x | Raise e => Raise e end in
    match attempt with
    | Ok d => (Ok d, ts')
    | Raise e =>
        if is_KanboardClientError e then
          (Ok (failure e), log_error (context ++ ": " ++ exc_str e) ts')
        else (Raise e, ts')
    end.

(** What a tool makes of the outcome of its call when the wrapping of
    the result cannot fail: the wrapped result, or the failure envelope
    and one line in the log. *)
Definition caught (wrap : value -> result value) (context : string)
    (ts : tool_state) (call : result value * Client.state World Handle)
    : result value * tool_state :=
  match call with
  | (Ok x, s') => (wrap x, mkToolState s' (tool_log ts))
  | (Raise e, s') =>
      (Ok (failure e),
       mkToolState s' (tool_log ts ++ [ (ERROR, context ++ ": " ++ exc_str e) ]))
  end.

(** [getAllTasks] *)
Definition getAllTasks (project_id : Z) (status_id : option Z) : T value :=
  tool "get_all_tasks"
    (match status_id with
     | Some st => [ VInt project_id; VInt st ]
     | None => [ VInt project_id ]
     end) []
    success_data_count
    ("Error getting all tasks for project " ++ PyStr.of_int project_id).

(** [getTask] *)
Definition getTask (task_id : Z) : T value :=
  tool "get_task" [ VInt task_id ] [] success_data
    ("Error getting task " ++ PyStr.of_int task_id).

(** [getTaskByReference] *)
Definition getTaskByReference (project_id : Z) (reference : string) : T value :=
  tool "get_task_by_reference" [ VInt project_id; VStr reference ] [] success_data
    ("Error getting task with reference '" ++ reference ++ "' in project "
     ++ PyStr.of_int project_id).

(** [getOverdueTasks] *)
Definition getOverdueTasks : T value :=
  tool "get_overdue_tasks" [] [] success_data_count "Error getting overdue tasks".

(** [getOverdueTasksByProject] *)
Definition getOverdueTasksByProject (project_id : Z) : T value :=
  tool "get_overdue_tasks_by_project" [ VInt project_id ] [] success_data_count
    ("Error getting overdue tasks for project " ++ PyStr.of_int project_id).

(** [createTask] *)
Definition createTask (project_id : Z) (title : string)
    (description : option string) (category_id owner_id creator_id : option Z)
    (date_due color_id : option string) (column_id swimlane_id priority : option Z)
    (reference : option string) (tags : option (list string)) : T value :=
  tool "create_task" []
    (create_task_data project_id title description category_id owner_id
       creator_id date_due color_id column_id swimlane_id priority reference tags)
    (success_keyed "task_id") "Error creating task".

(** [updateTask] *)
Definition updateTask (task_id : Z) (title description : option string)
    (category_id owner_id : option Z) (date_due color_id : option string)
    (priority : option Z) (reference : option string) : T value :=
  tool "update_task" []
    (update_task_data task_id title description category_id owner_id date_due
       color_id priority reference)
    (success_keyed "updated")
    ("Error updating task " ++ PyStr.of_int task_id).

(** [openTask] *)
Definition openTask (task_id : Z) : T value :=
  tool "open_task" [ VInt task_id ] [] (success_keyed "opened")
    ("Error opening task " ++ PyStr.of_int task_id).

(** [closeTask] *)
Definition closeTask (task_id : Z) : T value :=
  tool "close_task" [ VInt task_id ] [] (success_keyed "closed")
    ("Error closing task " ++ PyStr.of_int task_id).

(** [removeTask] *)
Definition removeTask (task_id : Z) : T value :=
  tool "remove_task" [ VInt task_id ] [] (success_keyed "removed")
    ("Error removing task " ++ PyStr.of_int task_id).

(** [searchTasks] *)
Definition searchTasks (project_id : Z) (query : string)
    (category_id owner_id : option Z) (due_date : option string)
    (status_id : option Z) : T value :=
  tool "search_tasks" []
    (search_params project_id query category_id owner_id due_date status_id)
    success_data_count "Error searching tasks".

(** The [test_connection] tool of the server:
    [try: return {"success": True, "data": client.test_connection()}]
    [except Exception as e: logger.error(...); return failure(e)]. *)
Definition test_connection_tool : T value :=
  fun ts =>
    let (r, s') := test_connection config (client ts) in
    let ts' := mkToolState s' (tool_log ts) in
    match r with
    | Ok x => (Ok (VDict [ ("success", VBool true); ("data", x) ]), ts')
    | Raise e =>
        (Ok (failure e), log_error ("Connection test failed: " ++ exc_str e) ts')
    end.

(** The [get_server_info] tool of the server, of the same shape. *)
Definition get_server_info_tool : T value :=
  fun ts =>
    let (r, s') := get_server_info config (client ts) in
    let ts' := mkToolState s' (tool_log ts) in
    match r with
    | Ok x => (Ok (VDict [ ("success", VBool true); ("data", x) ]), ts')
    | Raise e =>
        (Ok (failure e), log_error ("Failed to get server info: " ++ exc_str e) ts')
    end.

(** *** KanboardMCPServer.run *)

Definition tool_ret {A : Type} (a : A) : T A := fun ts => (Ok a, ts).

Definition tool_raise {A : Type} (e : exc) : T A := fun ts => (Raise e, ts).

Definition tool_bind {A B : Type} (c : T A) (k : A -> T B) : T B :=
  fun ts =>
    match c ts with
    | (Ok a, ts') => k a ts'
    | (Raise e, ts') => (Raise e, ts')
    end.

(** A step of the client, made on the client the server holds. *)
Definition on_client {A : Type} (c : M World Handle A) : T A :=
  fun ts =>
    let (r, s') := c (client ts) in
    (r, mkToolState s' (tool_log ts)).

(** [logger.info(msg)] and [logger.error(msg)] as steps. *)
Definition info (msg : string) : T unit :=
  fun ts => (Ok tt, mkToolState (client ts) (tool_log ts ++ [ (INFO, msg) ])).

Definition error (msg : string) : T unit :=
  fun ts => (Ok tt, log_error msg ts).

Section Run.

(** [repr] of a list or a dict, and [self.mcp.run()]: serving, during
    which the tools act on the client and the log. *)
Variable repr : value -> string.
Variable mcp_run : T unit.

(** [str(v)], as an f-string formats a value. *)
Definition format_value (v : value) : string :=
  match v with
  | VNone => "None"
  | VBool true => "True"
  | VBool false => "False"
  | VInt n => PyStr.of_int n
  | VStr s => s
  | VList _ | VDict _ => repr v
  end.

(** [KanboardMCPServer.run].  The clause for a keyboard interrupt is
    outside the model, as every exception that is not an instance of
    [Exception]. *)
Definition run : T unit :=
  fun ts =>
    let body : T unit :=
      tool_bind (info ("Starting " ++ server_name (server config) ++ " v"
                       ++ server_version (server config))) (fun _ =>
      tool_bind (info ("Connecting to Kanboard at " ++ url (kanboard config)))
        (fun _ =>
      tool_bind (on_client (test_connection config)) (fun connection_result =>
      tool_bind (on_client (value_get connection_result "connected" VNone))
        (fun connected =>
      tool_bind
        (if truthy connected then info "Successfully connected to Kanboard"
         else
           tool_bind (on_client (value_get connection_result "error" VNone))
             (fun err =>
           tool_bind (error ("Failed to connect to Kanboard: " ++ format_value err))
             (fun _ =>
           tool_bind (on_client (value_get connection_result "error" VNone))
             (fun err' =>
           tool_raise (new_exc (OtherException "ConnectionError")
                         ("Cannot connect to Kanboard: " ++ format_value err'))))))
        (fun _ => mcp_run))))) in
    match body ts with
    | (Ok u, ts') => (Ok u, ts')
    | (Raise e, ts') => (Raise e, log_error ("Server error: " ++ exc_str e) ts')
    end.

End Run.

End WithTransport.

Arguments tool_state World Handle : clear implicits.
Arguments T World Handle A : clear implicits.

(** A second test double: the answers are scripted as for [scripted],
    and the handle exposes every method name. *)
Definition any_method : Transport script unit := {|
  new_client := fun _ _ _ _ _ w => (Ok tt, w);
  handle_type_name := fun _ => "Client";
  has_attr := fun _ _ => true;
  invoke := fun _ _ _ _ w =>
    match w with
    | [] => (Raise (new_exc (OtherException "RuntimeError") "script exhausted"), [])
    | r :: w' => (r, w')
    end;
  sleep_error := scripted_sleep_error
|}.

(** The tools' state around a client of [any_method] that has connected,
    with an empty log. *)
Definition connected_tools (w : script) : tool_state script unit :=
  mkToolState (mkState (Some tt) true w []) [].

End Tools.

(** * Properties *)

(** ** Strings *)

Module PyStrFacts.

Import PyStr.

Lemma append_assoc (a b c : string) : ((a ++ b) ++ c = a ++ (b ++ c))%string.
Proof.
  induction a as [|x a IH]; simpl; [reflexivity | now rewrite IH].
Qed.

Lemma endswith_refl (s : string) : endswith s s = true.
Proof.
  destruct s; simpl; [reflexivity |].
  now rewrite Ascii.eqb_refl, String.eqb_refl.
Qed.

Lemma endswith_app (p suf : string) : endswith suf (p ++ suf) = true.
Proof.
  induction p as [|c p IH].
  - apply endswith_refl.
  - cbn [append endswith]. rewrite IH.
    now destruct (String.eqb (String c (p ++ suf)) suf).
Qed.

Lemma endswith_inv (suf s : string) :
  endswith suf s = true -> exists p, s = (p ++ suf)%string.
Proof.
  induction s as [|c s IH]; cbn [endswith]; intros H.
  - destruct (String.eqb_spec "" suf) as [E|E]; [|discriminate].
    exists ""%string. now rewrite <- E.
  - destruct (String.eqb_spec (String c s) suf) as [E|E].
    + exists ""%string. now rewrite <- E.
    + destruct (IH H) as [p Hp]. exists (String c p). simpl. now rewrite Hp.
Qed.

(** A string that ends with [a ++ b] ends with [b]. *)
Lemma endswith_weaken (a b s : string) :
  endswith (a ++ b) s = true -> endswith b s = true.
Proof.
  intros H. destruct (endswith_inv _ _ H) as [p ->].
  rewrite <- append_assoc. apply endswith_app.
Qed.

(** Appending to a string and to its suffix keeps the suffix. *)
Lemma endswith_app_both (a b s : string) :
  endswith a s = true -> endswith (a ++ b) (s ++ b) = true.
Proof.
  intros H. destruct (endswith_inv _ _ H) as [p ->].
  rewrite append_assoc. apply endswith_app.
Qed.

Lemma startswith_app (p s t : string) :
  startswith p s = true -> startswith p (s ++ t) = true.
Proof.
  unfold startswith. revert s.
  induction p as [|c p IH]; intros s H.
  - now destruct (s ++ t)%string.
  - destruct s as [|d s]; simpl in *; [discriminate|].
    destruct (ascii_dec c d); [now apply IH | discriminate].
Qed.

Lemma falsy_app (s t : string) : falsy s = false -> falsy (s ++ t) = false.
Proof. now destruct s. Qed.

End PyStrFacts.

(** ** URL normalisation *)

Module ConfigFacts.

Import PyStr PyStrFacts Config.

Lemma has_http_scheme_app (v t : string) :
  has_http_scheme v = true -> has_http_scheme (v ++ t) = true.
Proof.
  unfold has_http_scheme. intros H.
  apply orb_true_iff in H. apply orb_true_iff.
  destruct H as [H|H]; [left | right]; now apply startswith_app.
Qed.

Lemma has_http_scheme_nonempty (v : string) :
  has_http_scheme v = true -> falsy v = false.
Proof. now destruct v. Qed.

(** A URL with a scheme that already ends with the endpoint path is
    accepted as it is. *)
Lemma validate_url_fixed (v : string) :
  has_http_scheme v = true ->
  endswith "/jsonrpc.php" v = true ->
  validate_url v = Ok v.
Proof.
  intros Hs He. unfold validate_url.
  now rewrite (has_http_scheme_nonempty _ Hs), Hs, He.
Qed.

(** What [validate_url] returns is always a fixed point of it. *)
Lemma validate_url_result_fixed (v v' : string) :
  validate_url v = Ok v' -> validate_url v' = Ok v'.
Proof.
  unfold validate_url.
  destruct (falsy v) eqn:Hf; [discriminate|].
  destruct (has_http_scheme v) eqn:Hs; [|discriminate]. cbn [negb].
  destruct (endswith "/jsonrpc.php" v) eqn:He; cbn [negb].
  - intros [= <-]. now rewrite Hf, Hs, He.
  - destruct (endswith "/" v) eqn:Hslash; intros [= <-].
    + pose proof (endswith_app_both "/" "jsonrpc.php" v Hslash) as E.
      cbn [append] in E.
      now rewrite (falsy_app _ _ Hf), (has_http_scheme_app _ _ Hs), E.
    + rewrite (falsy_app _ _ Hf), (has_http_scheme_app _ _ Hs), endswith_app.
      reflexivity.
Qed.

Lemma not_endswith_suffix_not_endpoint (v : string) :
  endswith "jsonrpc.php" v = false -> endswith "/jsonrpc.php" v = false.
Proof.
  intros H. destruct (endswith "/jsonrpc.php" v) eqn:E; [|reflexivity].
  apply (endswith_weaken "/" "jsonrpc.php") in E. congruence.
Qed.

(** C7, as the code has it: a URL with an [http://] or [https://] scheme
    that ends neither with [jsonrpc.php] nor with a slash gets exactly one
    slash and [jsonrpc.php] appended; a URL with such a scheme that already
    ends with [/jsonrpc.php] (the suffix with its slash) is returned
    unchanged. *)
Theorem validate_url_normalizes (v : string) :
  has_http_scheme v = true ->
  (endswith "jsonrpc.php" v = false -> endswith "/" v = false ->
   validate_url v = Ok (v ++ "/" ++ "jsonrpc.php")%string)
  /\ (endswith "/jsonrpc.php" v = true -> validate_url v = Ok v).
Proof.
  intros Hs. split.
  - intros Hsuf Hslash. unfold validate_url.
    rewrite (has_http_scheme_nonempty _ Hs), Hs.
    now rewrite (not_endswith_suffix_not_endpoint _ Hsuf), Hslash.
  - now apply validate_url_fixed.
Qed.

Lemma validate_url_normalizes_witness :
  validate_url "https://kanboard.example.org"
    = Ok ("https://kanboard.example.org" ++ "/" ++ "jsonrpc.php")%string
  /\ validate_url "https://kanboard.example.org/jsonrpc.php"
     = Ok "https://kanboard.example.org/jsonrpc.php".
Proof.
  split.
  - apply (proj1 (validate_url_normalizes "https://kanboard.example.org" eq_refl));
      reflexivity.
  - apply (proj2 (validate_url_normalizes "https://kanboard.example.org/jsonrpc.php" eq_refl));
      reflexivity.
Defined.

(** C7 as stated fails: a URL whose last path segment merely ends with
    [jsonrpc.php] is not left unchanged, the endpoint path is appended to
    it. *)
Lemma validate_url_bare_suffix_extended :
  has_http_scheme "http://h/my_jsonrpc.php" = true
  /\ endswith "jsonrpc.php" "http://h/my_jsonrpc.php" = true
  /\ validate_url "http://h/my_jsonrpc.php" = Ok "http://h/my_jsonrpc.php/jsonrpc.php"
  /\ validate_url "http://h/my_jsonrpc.php" <> Ok "http://h/my_jsonrpc.php".
Proof.
  repeat split; try reflexivity. discriminate.
Qed.

(** C8: a URL with a valid scheme that ends with a slash (and so not with
    [jsonrpc.php]) gets exactly [jsonrpc.php] appended, with no further
    slash; and every input with a valid scheme is accepted, with a result
    that normalisation maps to itself. *)
Theorem validate_url_trailing_slash_idempotent (v : string) :
  has_http_scheme v = true ->
  (endswith "/" v = true -> endswith "jsonrpc.php" v = false ->
   validate_url v = Ok (v ++ "jsonrpc.php")%string)
  /\ (exists v', validate_url v = Ok v' /\ validate_url v' = Ok v').
Proof.
  intros Hs. split.
  - intros Hslash Hsuf. unfold validate_url.
    rewrite (has_http_scheme_nonempty _ Hs), Hs.
    now rewrite (not_endswith_suffix_not_endpoint _ Hsuf), Hslash.
  - assert (exists v', validate_url v = Ok v') as [v' Hv'].
    { unfold validate_url. rewrite (has_http_scheme_nonempty _ Hs), Hs. cbn [negb].
      destruct (endswith "/jsonrpc.php" v); cbn [negb]; [eauto|].
      destruct (endswith "/" v); eauto. }
    exists v'. split; [assumption|]. now apply validate_url_result_fixed with v.
Qed.

Lemma validate_url_trailing_slash_idempotent_witness :
  validate_url "http://h/" = Ok "http://h/jsonrpc.php"
  /\ (exists v', validate_url "http://h/" = Ok v' /\ validate_url v' = Ok v').
Proof.
  split.
  - apply (proj1 (validate_url_trailing_slash_idempotent "http://h/" eq_refl));
      reflexivity.
  - apply (proj2 (validate_url_trailing_slash_idempotent "http://h/" eq_refl)).
Defined.

End ConfigFacts.

(** ** The client *)

Module ClientFacts.

Import Config Client.
Local Open Scope list_scope.

Section WithTransport.

Context {World Handle : Type} {transport : Transport World Handle}.

Variable config : Config.

#[local] Abbreviation state := (Client.state World Handle).

Ltac unfold_py :=
  unfold call_method, external, try_except, bind, ret, raise, log, sleep, emit,
    get_client, get_connected, set_client, set_connected, record in *.

(** *** Dispatch among the [except] clauses of the retry loop *)

(** The second clause is never selected: whatever it accepts, the first
    has accepted before. *)
Lemma retry_clauses_dispatch (method_name : string) (attempt : Z) (e : exc) :
  find (fun c => fst c e) (retry_clauses config method_name attempt)
  = nth_error (retry_clauses config method_name attempt)
      (if is_kanboard_ClientError e then 0 else 2)%nat.
Proof.
  unfold retry_clauses. cbn [find fst nth_error].
  now destruct (is_kanboard_ClientError e).
Qed.

(** One pass through the loop body, case by case. *)
Lemma attempt_once_run (m : string) (args : list value)
    (kwargs : list (string * value)) (attempt : Z) (s : state) :
  attempt_once config m args kwargs attempt s =
  match _client s with
  | None =>
      let e := new_exc KanboardConnectionError "Client not connected" in
      (Ok (FellThrough (Some e)),
       record s [EvLog ERROR (LogUnexpected m (attempt + 1) e)])
  | Some h =>
      if has_attr h m then
        let (r, w') := invoke h m args kwargs (world s) in
        let s1 := mkState (_client s) (_connected s) w'
                    (trace s ++ [EvInvoke ApiCall m args kwargs]) in
        match r with
        | Ok v =>
            (Ok (Returned v),
             if debug (server config)
             then record s1 [EvLog DEBUG (LogCallSucceeded m (attempt + 1))]
             else s1)
        | Raise e =>
            match classify e with
            | AuthenticationKind =>
                (Raise (new_exc KanboardAuthenticationError
                          ("Authentication failed: " ++ exc_str e)%string),
                 record s1 [EvLog WARNING (LogApiError m (attempt + 1) e)])
            | APIKind =>
                (Raise (new_exc KanboardAPIError ("API error: " ++ exc_str e)%string),
                 record s1 [EvLog WARNING (LogApiError m (attempt + 1) e)])
            | ConnectionKind =>
                (Ok (FellThrough (Some e)),
                 record s1 [EvLog WARNING (LogApiError m (attempt + 1) e)])
            | ClientKind =>
                (Ok (FellThrough (Some e)),
                 record s1 [EvLog ERROR (LogUnexpected m (attempt + 1) e)])
            end
        end
      else
        let e := attribute_error h m in
        (Ok (FellThrough (Some e)),
         record s [EvLog ERROR (LogUnexpected m (attempt + 1) e)])
  end.
Proof.
  unfold attempt_once, retry_clauses, classify. unfold_py.
  destruct s as [[h|] f w t]; cbn.
  - destruct (has_attr h m); cbn; [|reflexivity].
    destruct (invoke h m args kwargs w) as [[v|e] w']; cbn.
    + now destruct (debug (server config)).
    + destruct (is_kanboard_ClientError e); cbn; [|reflexivity].
      destruct (mentions_auth e); cbn; [reflexivity|].
      now destruct (has_4xx_code e).
  - reflexivity.
Qed.

(** *** Session management *)

Ltac close_trace :=
  first [ exact (eq_sym (app_nil_r _)) | rewrite <- ?app_assoc; reflexivity ].

Ltac close_run :=
  intros [= <- <-]; cbn; eexists; (split; [close_trace|]);
  cbn; repeat split; auto with arith.

(** What a [connect] does to the outside: it never invokes the requested
    method, never sleeps, never disconnects; it constructs at most one
    handle and checks the identity at most once.  It raises only errors
    of the client's own classes. *)
Lemma connect_effects (s s' : state) (r : result unit) :
  connect config s = (r, s') ->
  exists d,
    trace s' = trace s ++ d
    /\ invocations d = 0%nat /\ reconnects d = 0%nat /\ sleeps d = 0%nat
    /\ (count is_identity_check d <= 1)%nat /\ (count is_create d <= 1)%nat
    /\ (count is_failure_log d = 0)%nat
    /\ match r with
       | Ok _ => is_connected s' = true
       | Raise e => is_KanboardClientError e = true
       end.
Proof.
  unfold connect, _create_client, value_get, is_connected. unfold_py.
  destruct s as [c f w t]; cbn.
  destruct (f && match c with Some _ => true | None => false end) eqn:Hguard.
  { intros [= <- <-]. exists []. cbn. rewrite app_nil_r. repeat split; auto. }
  cbn.
  destruct (open_client config w) as [[h|e0] w1]; cbn; [|close_run].
  destruct (has_attr h "get_me"); cbn; [|close_run].
  destruct (invoke h "get_me" [] [] w1) as [[v|e] w2]; cbn.
  - destruct v; cbn; close_run.
  - destruct (is_kanboard_ClientError e); cbn; close_run.
Qed.

(** *** The retry loop *)

Lemma count_app (p : event -> bool) (a b : list event) :
  count p (a ++ b) = (count p a + count p b)%nat.
Proof. unfold count. now rewrite filter_app, length_app. Qed.

Lemma loop_events_app (a b : list event) :
  loop_events a -> loop_events b -> loop_events (a ++ b).
Proof.
  unfold loop_events, reconnects. intros (Ha1 & Ha2 & Ha3) (Hb1 & Hb2 & Hb3).
  rewrite !count_app. lia.
Qed.

(** A pass leaves the session alone, invokes the method at most once,
    does not sleep, and raises only errors of the client's own classes. *)
Lemma attempt_once_effects (m : string) (args : list value)
    (kwargs : list (string * value)) (attempt : Z) (s s' : state) (r : result flow) :
  attempt_once config m args kwargs attempt s = (r, s') ->
  _client s' = _client s /\ _connected s' = _connected s
  /\ exists d,
       trace s' = trace s ++ d
       /\ loop_events d /\ (invocations d <= 1)%nat /\ sleeps d = 0%nat
       /\ (count is_failure_log d <= 1)%nat
       /\ match r with
          | Ok _ => True
          | Raise e => is_KanboardClientError e = true
          end.
Proof.
  rewrite attempt_once_run. unfold record, loop_events.
  destruct s as [c f w t]; cbn.
  destruct c as [h|]; cbn.
  - destruct (has_attr h m); cbn.
    + destruct (invoke h m args kwargs w) as [[v|e] w']; cbn.
      * destruct (debug (server config)); cbn;
          intros [= <- <-]; cbn; repeat split; auto;
          eexists; (split; [close_trace|]); cbn; repeat split; auto with arith.
      * destruct (classify e); cbn;
          intros [= <- <-]; cbn; repeat split; auto;
          eexists; (split; [close_trace|]); cbn; repeat split; auto with arith.
    + intros [= <- <-]; cbn; repeat split; auto;
        eexists; (split; [close_trace|]); cbn; repeat split; auto with arith.
  - intros [= <- <-]; cbn; repeat split; auto;
      eexists; (split; [close_trace|]); cbn; repeat split; auto with arith.
Qed.

(** The loop over [attempts] invokes the method at most once per attempt
    and sleeps at most once per attempt.  What it raises is an error of
    the client's own classes, or what [time.sleep] raised. *)
Lemma retry_loop_effects (m : string) (args : list value)
    (kwargs : list (string * value)) (attempts : list Z) :
  forall (last_exception : option exc) (s s' : state) (r : result (value + option exc)),
  retry_loop config m args kwargs attempts last_exception s = (r, s') ->
  _client s' = _client s /\ _connected s' = _connected s
  /\ exists d,
       trace s' = trace s ++ d
       /\ loop_events d
       /\ (invocations d <= length attempts)%nat
       /\ (sleeps d <= length attempts)%nat
       /\ match r with
          | Ok _ => True
          | Raise e =>
              is_KanboardClientError e = true
              \/ sleep_error (retry_delay (server config)) = Some e
          end.
Proof.
  induction attempts as [|attempt rest IH]; intros last s s' r; cbn [retry_loop].
  - unfold ret. intros [= <- <-]. repeat split; auto.
    exists []. rewrite app_nil_r. repeat split; auto.
  - unfold bind at 1.
    destruct (attempt_once config m args kwargs attempt s) as [r1 s1] eqn:H1.
    apply attempt_once_effects in H1.
    destruct H1 as (Hc1 & Hf1 & d1 & Ht1 & Hl1 & Hi1 & Hs1 & _ & Hr1).
    destruct r1 as [[v|last']|e].
    + unfold ret. intros [= <- <-]. split; [|split]; auto.
      exists d1. cbn [length]. repeat (split; [first [assumption | lia]|]). exact I.
    + set (pause := if attempt <? max_retries (server config)
                    then sleep (retry_delay (server config)) else ret tt).
      assert (Hp :
        (exists d2, pause s1 = (Ok tt, record s1 d2)
                    /\ loop_events d2 /\ invocations d2 = 0%nat
                    /\ (sleeps d2 <= 1)%nat)
        \/ (exists e, pause s1 = (Raise e, s1)
                      /\ sleep_error (retry_delay (server config)) = Some e)).
      { subst pause. destruct (attempt <? max_retries (server config)).
        - unfold sleep.
          destruct (sleep_error (retry_delay (server config))) as [e|].
          + right. exists e. now split.
          + left. eexists. split; [reflexivity|]. cbn. repeat split; auto.
        - left. exists []. split.
          + unfold ret, record. rewrite app_nil_r. now destruct s1.
          + cbn. repeat split; auto. }
      destruct Hp as [(d2 & Hp & Hl2 & Hi2 & Hs2) | (e & Hp & He)].
      * unfold bind. rewrite Hp. intros H2. apply IH in H2.
        destruct H2 as (Hc3 & Hf3 & d3 & Ht3 & Hl3 & Hi3 & Hs3 & Hr3).
        cbn in Hc3, Hf3, Ht3.
        repeat split; try congruence.
        exists (d1 ++ d2 ++ d3). rewrite Ht3, Ht1, <- !app_assoc.
        split; [reflexivity|].
        split; [auto using loop_events_app|].
        unfold invocations, sleeps in *. rewrite !count_app. cbn [length].
        repeat (split; [lia|]). exact Hr3.
      * unfold bind. rewrite Hp. intros [= <- <-]. split; [|split]; auto.
        exists d1. cbn [length]. repeat (split; [first [assumption | lia]|]).
        right. exact He.
    + intros [= <- <-]. split; [|split]; auto.
      exists d1. cbn [length]. repeat (split; [first [assumption | lia]|]).
      left. exact Hr1.
Qed.

Lemma range_length (n : Z) : length (range n) = Z.to_nat n.
Proof. unfold range. now rewrite length_map, length_seq. Qed.

(** [ensure_connected] either does nothing or is a [connect]. *)
Lemma ensure_connected_effects (s s' : state) (r : result unit) :
  ensure_connected config s = (r, s') ->
  exists d,
    trace s' = trace s ++ d
    /\ invocations d = 0%nat /\ reconnects d = 0%nat /\ sleeps d = 0%nat
    /\ (count is_identity_check d <= 1)%nat /\ (count is_create d <= 1)%nat
    /\ match r with
       | Ok _ => is_connected s' = true
       | Raise e => is_KanboardClientError e = true
       end.
Proof.
  unfold ensure_connected. destruct (is_connected s) eqn:Hc; cbn [negb].
  - unfold ret. intros [= <- <-]. exists []. rewrite app_nil_r.
    repeat split; auto.
  - intros H. apply connect_effects in H.
    destruct H as (d & H1 & H2 & H3 & H4 & H5 & H6 & _ & H7).
    exists d. repeat (split; [assumption|]). exact H7.
Qed.

(** Everything a run of [_execute_with_retry] does to the outside. *)
Lemma execute_effects (m : string) (args : list value)
    (kwargs : list (string * value)) (s s' : state) (r : result value) :
  _execute_with_retry config m args kwargs s = (r, s') ->
  exists d,
    trace s' = trace s ++ d
    /\ (invocations d <= Z.to_nat (max_retries (server config) + 1))%nat
    /\ reconnects d = 0%nat
    /\ (count is_identity_check d <= 1)%nat
    /\ (count is_create d <= 1)%nat
    /\ match r with
       | Ok _ => True
       | Raise e =>
           is_KanboardClientError e = true
           \/ sleep_error (retry_delay (server config)) = Some e
       end.
Proof.
  unfold _execute_with_retry. unfold bind at 1.
  destruct (ensure_connected config s) as [[[]|e0] s0] eqn:H0;
    apply ensure_connected_effects in H0;
    destruct H0 as (d0 & Ht0 & Hi0 & Hr0 & Hs0 & Hid0 & Hcr0 & Hk0).
  - unfold bind.
    destruct (retry_loop config m args kwargs _ None s0) as [r1 s1] eqn:H1.
    apply retry_loop_effects in H1.
    destruct H1 as (_ & _ & d1 & Ht1 & (Hr1 & Hid1 & Hcr1) & Hi1 & _ & Hk1).
    rewrite range_length in Hi1.
    assert (Hd : trace s1 = trace s ++ (d0 ++ d1))
      by now rewrite Ht1, Ht0, app_assoc.
    assert (Hcounts :
      (invocations (d0 ++ d1) <= Z.to_nat (max_retries (server config) + 1))%nat
      /\ reconnects (d0 ++ d1) = 0%nat
      /\ (count is_identity_check (d0 ++ d1) <= 1)%nat
      /\ (count is_create (d0 ++ d1) <= 1)%nat).
    { unfold invocations, reconnects in *. rewrite !count_app. lia. }
    destruct Hcounts as (C1 & C2 & C3 & C4).
    destruct r1 as [[v|last]|e1]; unfold ret, raise; intros [= <- <-];
      exists (d0 ++ d1); repeat (split; [assumption|]); auto.
    left. now destruct last as [e|]; unfold exhausted_error;
      [destruct (is_kanboard_ClientError e)|].
  - intros [= <- <-]. exists d0.
    repeat (split; [first [assumption | lia]|]). left. exact Hk0.
Qed.

(** [call_api] passes on what [_execute_with_retry] returns, and raises
    again, as it is, an error of the client's own classes. *)
Lemma call_api_passes (m : string) (args : list value)
    (kwargs : list (string * value)) (s s' : state) (r : result value) :
  _execute_with_retry config m args kwargs s = (r, s') ->
  match r with
  | Ok _ => True
  | Raise e => is_KanboardClientError e = true
  end ->
  call_api config m args kwargs s = (r, s').
Proof.
  intros H Hr. unfold call_api, try_except. rewrite H.
  destruct r as [v|e]; [reflexivity|]. cbn [find fst snd]. now rewrite Hr.
Qed.


(** Everything a run of [call_api] does to the outside. *)
Lemma call_api_effects (m : string) (args : list value)
    (kwargs : list (string * value)) (s : state) :
  exists d,
    trace (snd (call_api config m args kwargs s)) = trace s ++ d
    /\ (invocations d <= Z.to_nat (max_retries (server config) + 1))%nat
    /\ reconnects d = 0%nat
    /\ (count is_identity_check d <= 1)%nat.
Proof.
  unfold call_api, try_except.
  destruct (_execute_with_retry config m args kwargs s) as [r s'] eqn:H.
  apply execute_effects in H. destruct H as (d & Ht & Hi & Hr & Hid & _ & _).
  destruct r as [v|e]; cbn [find fst snd].
  - exists d. auto.
  - destruct (is_KanboardClientError e); cbn [snd];
      unfold bind, log, emit, raise, is_Exception; cbn [snd trace].
    + exists d. auto.
    + exists (d ++ [EvLog ERROR (LogCallApiUnexpected m e)]).
      rewrite Ht, app_assoc. unfold invocations, reconnects in *.
      rewrite !count_app. cbn. repeat split; lia.
Qed.

Lemma validate_max_retries_ok (v : Z) :
  validate_max_retries v = Ok v <-> 0 <= v.
Proof.
  unfold validate_max_retries. destruct (Z.ltb_spec v 0); split; intros H';
    (reflexivity || discriminate || lia).
Qed.

(** C3: with a validated retry count, one call of [call_api] invokes the
    requested method on the transport at most [max_retries + 1] times,
    whatever the method, the arguments, the client's state and the
    transport's answers; so does one call of [_execute_with_retry], which
    it wraps.  The identity check of an initial [connect] is a call of its
    own kind, made at most once. *)
Theorem call_api_invocations_bounded (m : string) (args : list value)
    (kwargs : list (string * value)) (s : state) :
  0 <= max_retries (server config) ->
  (exists d,
     trace (snd (call_api config m args kwargs s)) = trace s ++ d
     /\ Z.of_nat (invocations d) <= max_retries (server config) + 1
     /\ (count is_identity_check d <= 1)%nat)
  /\ (exists d,
        trace (snd (_execute_with_retry config m args kwargs s)) = trace s ++ d
        /\ Z.of_nat (invocations d) <= max_retries (server config) + 1
        /\ (count is_identity_check d <= 1)%nat).
Proof.
  intros Hmr. split.
  - destruct (call_api_effects m args kwargs s) as (d & Ht & Hi & _ & Hid).
    exists d. repeat split; auto. lia.
  - destruct (_execute_with_retry config m args kwargs s) as [r s'] eqn:H.
    apply execute_effects in H. destruct H as (d & Ht & Hi & _ & Hid & _ & _).
    exists d. cbn [snd]. repeat split; auto. lia.
Qed.

(** Nothing in a run of [call_api] disconnects: the clause of the retry
    loop that would reconnect is never selected. *)
Lemma call_api_never_reconnects (m : string) (args : list value)
    (kwargs : list (string * value)) (s : state) :
  exists d,
    trace (snd (call_api config m args kwargs s)) = trace s ++ d
    /\ reconnects d = 0%nat.
Proof.
  destruct (call_api_effects m args kwargs s) as (d & Ht & _ & Hr & _).
  exists d. now split.
Qed.

Lemma range_first (n : Z) : 0 <= n -> exists rest, range (n + 1) = 0 :: rest.
Proof.
  intros Hn. unfold range.
  replace (Z.to_nat (n + 1)) with (S (Z.to_nat n)) by lia.
  cbn [seq map]. eauto.
Qed.

(** A session that passed [ensure_connected] has a handle. *)
Lemma is_connected_handle (s : state) :
  is_connected s = true -> exists h, _client s = Some h.
Proof.
  unfold is_connected. destruct (_client s) as [h|]; [eauto|].
  now rewrite andb_false_r.
Qed.

(** The two kinds the loop does not go on after, spelled out. *)
Lemma classify_terminal (e : exc) :
  is_kanboard_ClientError e = true ->
  mentions_auth e = true \/ has_4xx_code e = true ->
  (classify e = AuthenticationKind \/ classify e = APIKind)
  /\ terminal_error e
     = (if mentions_auth e
        then new_exc KanboardAuthenticationError
               ("Authentication failed: " ++ exc_str e)%string
        else new_exc KanboardAPIError ("API error: " ++ exc_str e)%string).
Proof.
  intros Hc Hk. unfold terminal_error, classify. rewrite Hc.
  destruct (mentions_auth e); [now split; [left|]|].
  destruct Hk as [Hk|Hk]; [discriminate|]. rewrite Hk. now split; [right|].
Qed.

(** C2: when the first invocation of the method fails with an error of
    the transport ([kanboard.ClientError]) whose message contains
    [authentication] or [unauthorized] in any letter case, or which
    carries a code from 400 to 499, [call_api] raises at once, a
    [KanboardAuthenticationError] in the first case and a
    [KanboardAPIError] otherwise: the run holds exactly one invocation
    and no delay, and ends right after the failure was logged. *)
Theorem call_api_terminal_kinds_not_retried (m : string) (args : list value)
    (kwargs : list (string * value)) (s s1 : state) (h : Handle) (e : exc)
    (w' : World) :
  0 <= max_retries (server config) ->
  ensure_connected config s = (Ok tt, s1) ->
  _client s1 = Some h ->
  has_attr h m = true ->
  invoke h m args kwargs (world s1) = (Raise e, w') ->
  is_kanboard_ClientError e = true ->
  mentions_auth e = true \/ has_4xx_code e = true ->
  exists s' d,
    call_api config m args kwargs s
    = (Raise (if mentions_auth e
              then new_exc KanboardAuthenticationError
                     ("Authentication failed: " ++ exc_str e)%string
              else new_exc KanboardAPIError ("API error: " ++ exc_str e)%string),
       s')
    /\ trace s' = trace s ++ d
    /\ invocations d = 1%nat /\ sleeps d = 0%nat
    /\ trace s'
       = trace s1 ++ [EvInvoke ApiCall m args kwargs;
                      EvLog WARNING (LogApiError m 1 e)]
    /\ world s' = w'.
Proof.
  intros Hmr Hconn Hh Hattr Hinv Hcls Hmsg.
  destruct (classify_terminal e Hcls Hmsg) as [Hkind <-].
  assert (Hrun : _execute_with_retry config m args kwargs s
                 = (Raise (terminal_error e),
                    record (mkState (_client s1) (_connected s1) w'
                              (trace s1 ++ [EvInvoke ApiCall m args kwargs]))
                      [EvLog WARNING (LogApiError m 1 e)])).
  { unfold _execute_with_retry. unfold bind at 1. rewrite Hconn.
    destruct (range_first _ Hmr) as [rest ->].
    cbn [retry_loop]. unfold bind. rewrite attempt_once_run, Hh, Hattr, Hinv.
    unfold terminal_error. now destruct Hkind as [-> | ->]. }
  apply call_api_passes in Hrun.
  2:{ unfold terminal_error. now destruct (classify e). }
  apply ensure_connected_effects in Hconn.
  destruct Hconn as (d0 & Ht0 & Hi0 & _ & Hs0 & _).
  do 2 eexists. split; [exact Hrun|]. unfold record. cbn [trace world].
  rewrite Ht0, <- !app_assoc. split; [reflexivity|].
  unfold invocations, sleeps in *. rewrite !count_app, Hi0, Hs0.
  cbn. repeat split; reflexivity.
Qed.

(** *** Runs in which every attempt fails *)

Lemma record_nil (s : state) : record s [] = s.
Proof. unfold record. rewrite app_nil_r. now destruct s. Qed.

Lemma record_record (s : state) (a b : list event) :
  record (record s a) b = record s (a ++ b).
Proof. unfold record. cbn. now rewrite app_assoc. Qed.

(** The delay step after a failed attempt, as an addition to the trace,
    when the configured delay is one [time.sleep] accepts. *)
Lemma pause_run (attempt : Z) (s : state) :
  sleep_error (retry_delay (server config)) = None ->
  (if attempt <? max_retries (server config)
   then sleep (retry_delay (server config)) else ret tt) s
  = (Ok tt,
     record s (if attempt <? max_retries (server config)
               then [EvSleep (retry_delay (server config))] else [])).
Proof.
  intros Hd. unfold sleep. rewrite Hd.
  destruct (attempt <? max_retries (server config)); [reflexivity|].
  now rewrite record_nil.
Qed.




(** *** A method the handle does not expose *)


Lemma attempts_before_last (k : nat) :
  forall (a n : nat), (a + n <= k)%nat ->
  filter (fun x => x <? Z.of_nat k) (map Z.of_nat (seq a n))
  = map Z.of_nat (seq a n).
Proof.
  intros a n. revert a. induction n as [|n IH]; intros a Hk; [reflexivity|].
  cbn [seq map filter].
  destruct (Z.ltb_spec (Z.of_nat a) (Z.of_nat k)); [|lia].
  rewrite IH by lia. reflexivity.
Qed.





(** *** Diagnostics and session queries *)

(** C5: [test_connection] never raises, whatever the state of the client
    and the answers of the transport.  It returns a dict; when the
    identity call through [call_api] succeeds the dict has [connected]
    true and the payload of the call under [user], and when that call
    raises (a failed connect, a terminal error, exhausted retries) the dict
    has [connected] false and the error's message under [error]. *)
Theorem test_connection_never_raises (s : state) :
  exists d,
    test_connection config s
    = (Ok (VDict d), snd (call_api config "get_me" [] [] s))
    /\ d = match fst (call_api config "get_me" [] [] s) with
           | Ok payload =>
               [ ("connected", VBool true);
                 ("user", payload);
                 ("server_url", VStr (url (kanboard config)));
                 ("username", VStr (username (kanboard config))) ]
           | Raise e =>
               [ ("connected", VBool false);
                 ("error", VStr (exc_str e));
                 ("server_url", VStr (url (kanboard config)));
                 ("username", VStr (username (kanboard config))) ]
           end
    /\ assoc "connected" d
       = Some (VBool match fst (call_api config "get_me" [] [] s) with
                     | Ok _ => true
                     | Raise _ => false
                     end).
Proof.
  unfold test_connection, try_except, bind, ret.
  destruct (call_api config "get_me" [] [] s) as [[payload|e] s'];
    cbn [fst snd find is_Exception]; eexists; repeat split; reflexivity.
Qed.

(** C6: [disconnect] never fails; it clears the handle and the flag
    whatever the state was, touches nothing else but the log, and on a
    client that is already disconnected it leaves handle and flag as they
    are.  In particular a second [disconnect] leaves the session as the
    first one left it. *)
Theorem disconnect_clears_session (s : state) :
  let s1 := mkState None false (world s) (trace s ++ [EvLog INFO LogDisconnected]) in
  disconnect s = (Ok tt, s1)
  /\ is_connected s1 = false
  /\ disconnect s1 = (Ok tt, record s1 [EvLog INFO LogDisconnected])
  /\ (forall s0 : state,
        _client s0 = None -> _connected s0 = false ->
        disconnect s0 = (Ok tt, record s0 [EvLog INFO LogDisconnected])).
Proof.
  cbn zeta. repeat split.
  intros [c f w t]. cbn. now intros -> ->.
Qed.

(** [is_connected] answers true exactly when the flag is set and a handle
    is present; being a function of the state, it changes nothing. *)
Lemma is_connected_iff (s : state) :
  is_connected s = true <-> _connected s = true /\ _client s <> None.
Proof.
  unfold is_connected. destruct (_connected s), (_client s); cbn;
    split; try easy; intros [? ?]; congruence.
Qed.

(** A [connect] on a client whose flag is unset can raise and yet leave
    the client connected in one way only: the identity check answered
    with a value that is neither [None] nor a dict, so that the flag was
    set before the look-up of the user's name failed. *)
Lemma connect_raises_connected (s s' : state) (e : exc) :
  _connected s = false ->
  connect config s = (Raise e, s') ->
  is_connected s' = true ->
  exists h w1 v w2,
    open_client config (world s) = (Ok h, w1)
    /\ has_attr h "get_me" = true
    /\ invoke h "get_me" [] [] w1 = (Ok v, w2)
    /\ v <> VNone /\ (forall entries, v <> VDict entries).
Proof.
  unfold connect, _create_client, value_get, is_connected. unfold_py.
  destruct s as [c f w t]; cbn. intros ->. cbn.
  destruct (open_client config w) as [[h|e0] w1] eqn:Hopen; cbn;
    [|intros [= <- <-]; discriminate].
  destruct (has_attr h "get_me") eqn:Hattr; cbn;
    [|intros [= <- <-]; discriminate].
  destruct (invoke h "get_me" [] [] w1) as [[v|e1] w2] eqn:Hinv; cbn.
  - destruct v; cbn; intros [= <- <-]; cbn; try discriminate; intros _;
      exists h, w1; eexists; exists w2;
      do 3 (split; [first [eassumption | reflexivity]|]);
      (split; [discriminate | intros; discriminate]).
  - destruct (is_kanboard_ClientError e1); cbn; intros [= <- <-]; discriminate.
Qed.

(** A [connect] that returns leaves the session connected. *)
Lemma connect_ok_connected (s s' : state) :
  connect config s = (Ok tt, s') -> is_connected s' = true.
Proof.
  intros H. apply connect_effects in H.
  now destruct H as (d & _ & _ & _ & _ & _ & _ & _ & H).
Qed.

End WithTransport.

End ClientFacts.

(** ** Runs against the scripted transport *)

Module Scenarios.

Import Config Client ClientFacts.
Local Open Scope list_scope.

(** C1 fails on the code.  With [max_retries = 2] and [retry_delay = 0],
    a transport that fails twice with a connection-class error and then
    answers makes [call_api] return the answer after three invocations,
    as claimed, but with no reconnect at all where two are claimed: the
    failures are handled by the first [except] clause, and the clause that
    disconnects and connects again is never reached. *)
Theorem connection_failures_retried_without_reconnect :
  let s := connected_client
             [ Raise connection_refused; Raise connection_refused; Ok no_projects ] in
  let run := call_api (sample_config 2 0%float) "get_all_projects" [] [] s in
  classify connection_refused = ConnectionKind
  /\ fst run = Ok no_projects
  /\ invocations (trace (snd run)) = 3%nat
  /\ sleeps (trace (snd run)) = 2%nat
  /\ reconnects (trace (snd run)) = 0%nat
  /\ count is_create (trace (snd run)) = 0%nat
  /\ count is_identity_check (trace (snd run)) = 0%nat.
Proof. cbv zeta. repeat split; reflexivity. Qed.

(** C9 fails on the code.  When the identity check answers with a value
    that is neither [None] nor a dict (here JSON [false]), [connect] sets
    the flag, fails on the look-up of the user's name, and raises with the
    flag still set: [is_connected] answers true after a failed
    [connect]. *)
Theorem connect_raises_with_flag_set :
  let s := init (Handle := list string) [ Ok (VBool false) ] in
  let run := connect (sample_config 3 1%float) s in
  is_connected s = false
  /\ fst run
     = Raise (new_exc KanboardConnectionError
                "Connection failed: 'bool' object has no attribute 'get'")
  /\ _connected (snd run) = true
  /\ is_connected (snd run) = true.
Proof. cbv zeta. repeat split; reflexivity. Qed.

(** For contrast: an identity check that answers [None] or that raises
    leaves the flag unset. *)
Example connect_rejected_flag_unset :
  is_connected (snd (connect (sample_config 3 1%float)
                       (init (Handle := list string) [ Ok VNone ]))) = false
  /\ is_connected (snd (connect (sample_config 3 1%float)
                          (init (Handle := list string) [ Raise unauthorized ]))) = false.
Proof. split; reflexivity. Qed.

Lemma call_api_invocations_bounded_witness :
  let s := init (Handle := list string)
             [ Ok admin; Raise connection_refused; Raise type_error;
               Raise connection_refused; Ok no_projects ] in
  (exists d,
     trace (snd (call_api (sample_config 2 0%float) "get_all_projects" [] [] s))
     = trace s ++ d
     /\ Z.of_nat (invocations d) <= max_retries (server (sample_config 2 0%float)) + 1
     /\ (count is_identity_check d <= 1)%nat)
  /\ (exists d,
        trace (snd (_execute_with_retry (sample_config 2 0%float)
                      "get_all_projects" [] [] s))
        = trace s ++ d
        /\ Z.of_nat (invocations d) <= max_retries (server (sample_config 2 0%float)) + 1
        /\ (count is_identity_check d <= 1)%nat).
Proof.
  cbv zeta.
  apply (call_api_invocations_bounded (sample_config 2 0%float)
           "get_all_projects" [] []).
  cbn. lia.
Defined.

Lemma call_api_terminal_kinds_not_retried_witness :
  let cfg := sample_config 3 1%float in
  let s := init (Handle := list string) [ Ok admin; Raise not_found; Ok no_projects ] in
  let s1 := snd (ensure_connected cfg s) in
  classify not_found = APIKind
  /\ exists s' d,
       call_api cfg "get_all_projects" [] [] s
       = (Raise (if mentions_auth not_found
                 then new_exc KanboardAuthenticationError
                        ("Authentication failed: " ++ exc_str not_found)%string
                 else new_exc KanboardAPIError
                        ("API error: " ++ exc_str not_found)%string),
          s')
       /\ trace s' = trace s ++ d
       /\ invocations d = 1%nat /\ sleeps d = 0%nat
       /\ trace s'
          = trace s1 ++ [ EvInvoke ApiCall "get_all_projects" [] [];
                          EvLog WARNING (LogApiError "get_all_projects" 1 not_found) ]
       /\ world s' = [ Ok no_projects ].
Proof.
  cbv zeta. split; [reflexivity|].
  apply (call_api_terminal_kinds_not_retried (sample_config 3 1%float)
           "get_all_projects" [] []
           (init [ Ok admin; Raise not_found; Ok no_projects ])
           (snd (ensure_connected (sample_config 3 1%float)
                   (init [ Ok admin; Raise not_found; Ok no_projects ])))
           scripted_methods not_found [ Ok no_projects ]).
  - cbn. lia.
  - reflexivity.
  - reflexivity.
  - reflexivity.
  - reflexivity.
  - reflexivity.
  - right. reflexivity.
Defined.


(** The message and code tests are applied to errors of the transport's
    class only: an exception of another class is of the catch-all kind
    whatever its message says, and the call is tried again. *)
Example stray_exception_retried :
  let run := call_api (sample_config 1 0%float) "get_all_projects" [] []
               (connected_client [ Raise stray_unauthorized; Ok no_projects ]) in
  mentions_auth stray_unauthorized = true
  /\ classify stray_unauthorized = ClientKind
  /\ fst run = Ok no_projects
  /\ invocations (trace (snd run)) = 2%nat.
Proof. cbv zeta. repeat split; reflexivity. Qed.

(** The error raised after three retryable failures, spelled out. *)
Example exhausted_error_message :
  fst (call_api (sample_config 2 0%float) "get_all_projects" [] []
         (connected_client
            [ Raise connection_refused; Raise connection_refused; Raise type_error ]))
  = Raise (new_exc KanboardClientError
             "Unexpected error in get_all_projects after 3 attempts: unexpected keyword argument").
Proof. reflexivity. Qed.


(** The trace of the run above: three logged failures, a delay after the
    first two, nothing sent. *)
Example unknown_method_trace :
  let e := attribute_error scripted_methods "get_everything" in
  trace (snd (call_api (sample_config 2 0%float) "get_everything" [] []
                (connected_client [ Ok no_projects ])))
  = [ EvLog ERROR (LogUnexpected "get_everything" 1 e); EvSleep 0%float;
      EvLog ERROR (LogUnexpected "get_everything" 2 e); EvSleep 0%float;
      EvLog ERROR (LogUnexpected "get_everything" 3 e) ].
Proof. reflexivity. Qed.



(** A delay that is not a number passes the validator of [retry_delay],
    whose test [v < 0] is false for it; the scripted clock refuses it as
    [time.sleep] does. *)
Example nan_delay_validated_not_slept :
  validate_retry_delay nan = Ok nan
  /\ sleep_error nan = Some (new_exc ValueError "Invalid value NaN (not a number)")
  /\ sleep_error 0%float = None
  /\ sleep_error 1%float = None.
Proof. repeat split; reflexivity. Qed.

(** [test_connection] on a transport that always fails. *)
Example test_connection_failing_transport :
  fst (test_connection (sample_config 1 0%float)
         (init (Handle := list string) [ Raise connection_refused ]))
  = Ok (VDict [ ("connected", VBool false);
                ("error", VStr "Authentication failed: Connection refused");
                ("server_url", VStr "http://h/jsonrpc.php");
                ("username", VStr "jsonrpc") ]).
Proof. reflexivity. Qed.

End Scenarios.

(** ** More on the client: sessions, errors, composition *)

Module ClientMore.

Import Config Client ClientFacts.
Local Open Scope list_scope.

Section WithTransport.

Context {World Handle : Type} {transport : Transport World Handle}.

Variable config : Config.

#[local] Abbreviation state := (Client.state World Handle).

Ltac unfold_ops :=
  unfold call_method, external, try_except, bind, ret, raise, log, emit,
    get_client, get_connected, set_client, set_connected in *.

(** *** What [call_api] raises *)

(** X1: whatever [_execute_with_retry] returns, [call_api] returns; what
    [call_api] raises is always of the client's own classes: either the
    very error [_execute_with_retry] raised, or, when that one was the
    refusal of the delay by [time.sleep], a [KanboardClientError] whose
    message is [Unexpected error: ] followed by the refusal's message. *)
Theorem call_api_error_class (m : string) (args : list value)
    (kwargs : list (string * value)) (s : state) :
  match fst (call_api config m args kwargs s),
        fst (_execute_with_retry config m args kwargs s) with
  | Ok v, Ok v' => v = v'
  | Raise e, Raise e0 =>
      is_KanboardClientError e = true
      /\ (e = e0
          \/ (sleep_error (retry_delay (server config)) = Some e0
              /\ e = new_exc KanboardClientError
                       ("Unexpected error: " ++ exc_str e0)%string))
  | _, _ => False
  end.
Proof.
  unfold call_api, try_except.
  destruct (_execute_with_retry config m args kwargs s) as [[v|e0] s'] eqn:H;
    cbn [fst]; [reflexivity|].
  apply execute_effects in H. destruct H as (d & _ & _ & _ & _ & _ & He).
  cbn [find fst snd].
  destruct (is_KanboardClientError e0) eqn:Hk; cbn [fst snd].
  - unfold raise. cbn [fst]. split; [exact Hk | now left].
  - unfold is_Exception, bind, log, emit, raise. cbn [fst].
    split; [reflexivity|]. right. split; [|reflexivity].
    destruct He as [He|He]; [congruence | exact He].
Qed.

(** *** The session invariant *)

Lemma connect_session_ok (s : state) :
  session_ok s -> session_ok (snd (connect config s)).
Proof.
  unfold session_ok, connect, _create_client, value_get. unfold_ops.
  destruct s as [c f w t]; cbn.
  destruct (f && match c with Some _ => true | None => false end) eqn:Hguard;
    [cbn; auto|]. cbn.
  destruct (open_client config w) as [[h|e0] w1]; cbn; [|auto].
  destruct (has_attr h "get_me"); cbn; [|discriminate].
  destruct (invoke h "get_me" [] [] w1) as [[v|e] w2]; cbn.
  - destruct v; cbn; discriminate.
  - destruct (is_kanboard_ClientError e); cbn; discriminate.
Qed.

Lemma ensure_connected_session_ok (s : state) :
  session_ok s -> session_ok (snd (ensure_connected config s)).
Proof.
  unfold ensure_connected. destruct (negb (is_connected s)).
  - apply connect_session_ok.
  - auto.
Qed.

(** The retry loop leaves handle and flag as [ensure_connected] left
    them. *)
Lemma execute_session (m : string) (args : list value)
    (kwargs : list (string * value)) (s : state) :
  _client (snd (_execute_with_retry config m args kwargs s))
  = _client (snd (ensure_connected config s))
  /\ _connected (snd (_execute_with_retry config m args kwargs s))
     = _connected (snd (ensure_connected config s)).
Proof.
  unfold _execute_with_retry, bind.
  destruct (ensure_connected config s) as [[[]|e0] s0]; cbn [snd]; [|now split].
  destruct (retry_loop config m args kwargs _ None s0) as [r1 s1] eqn:H1.
  apply retry_loop_effects in H1. destruct H1 as (Hc & Hf & _).
  destruct r1 as [[v|last]|e1]; unfold ret, raise; cbn [snd]; now split.
Qed.

(** So does the wrapping in [call_api]. *)
Lemma call_api_session (m : string) (args : list value)
    (kwargs : list (string * value)) (s : state) :
  _client (snd (call_api config m args kwargs s))
  = _client (snd (ensure_connected config s))
  /\ _connected (snd (call_api config m args kwargs s))
     = _connected (snd (ensure_connected config s)).
Proof.
  pose proof (execute_session m args kwargs s) as H.
  unfold call_api, try_except.
  destruct (_execute_with_retry config m args kwargs s) as [[v|e] s'];
    cbn [snd find fst] in *; [exact H|].
  destruct (is_KanboardClientError e); cbn [snd]; [exact H|].
  unfold is_Exception, bind, log, emit, raise. cbn. exact H.
Qed.

Lemma call_api_session_ok (m : string) (args : list value)
    (kwargs : list (string * value)) (s : state) :
  session_ok s -> session_ok (snd (call_api config m args kwargs s)).
Proof.
  intros H. apply ensure_connected_session_ok in H.
  destruct (call_api_session m args kwargs s) as [Hc Hf].
  unfold session_ok in *. now rewrite Hc, Hf.
Qed.

Lemma test_connection_state (s : state) :
  snd (test_connection config s) = snd (call_api config "get_me" [] [] s).
Proof.
  unfold test_connection, try_except, bind, ret.
  now destruct (call_api config "get_me" [] [] s) as [[v|e] s'].
Qed.

(** [get_server_info] ends in the state its last [call_api] ended in. *)
Lemma get_server_info_state (s : state) :
  snd (get_server_info config s)
  = match call_api config "get_me" [] [] s with
    | (Ok _, s1) => snd (call_api config "get_version" [] [] s1)
    | (Raise _, s1) => s1
    end.
Proof.
  unfold get_server_info, try_except, bind, ret.
  destruct (call_api config "get_me" [] [] s) as [[u|e] s1]; [|reflexivity].
  now destruct (call_api config "get_version" [] [] s1) as [[v|e] s2].
Qed.

Lemma with_client_run {A : Type} (body : M World Handle A) (s : state) :
  with_client config body s
  = match connect config s with
    | (Ok _, s1) =>
        (fst (body s1),
         mkState None false (world (snd (body s1)))
           (trace (snd (body s1)) ++ [EvLog INFO LogDisconnected]))
    | (Raise e, s1) => (Raise e, s1)
    end.
Proof.
  unfold with_client, __enter__, __exit__, disconnect, bind.
  destruct (connect config s) as [[[]|e] s1]; [|reflexivity].
  destruct (body s1) as [r s2]. reflexivity.
Qed.

(** X2: every operation of the client keeps the session consistent: a
    client whose flag is set only together with a handle stays so through
    [connect], [disconnect], [call_api], [test_connection],
    [get_server_info] and a [with] block, whatever its body; a new client
    is consistent. *)
Theorem session_ok_preserved (s : state) :
  session_ok s ->
  session_ok (snd (connect config s))
  /\ session_ok (snd (disconnect s))
  /\ (forall m args kwargs, session_ok (snd (call_api config m args kwargs s)))
  /\ session_ok (snd (test_connection config s))
  /\ session_ok (snd (get_server_info config s))
  /\ (forall (A : Type) (body : M World Handle A),
        session_ok (snd (with_client config body s)))
  /\ (forall w : World, session_ok (create_client (Handle := Handle) w)).
Proof.
  intros H. repeat split.
  - now apply connect_session_ok.
  - discriminate.
  - intros. now apply call_api_session_ok.
  - rewrite test_connection_state. now apply call_api_session_ok.
  - rewrite get_server_info_state.
    pose proof (call_api_session_ok "get_me" [] [] s H) as H1.
    destruct (call_api config "get_me" [] [] s) as [[u|e] s1]; cbn [snd] in H1.
    + now apply call_api_session_ok.
    + exact H1.
  - intros A body. rewrite with_client_run.
    pose proof (connect_session_ok s H) as H1.
    destruct (connect config s) as [[[]|e] s1]; cbn [snd] in *.
    + discriminate.
    + exact H1.
  - intros w. discriminate.
Qed.

(** *** Connecting *)

(** X3: a [connect] that returned is not repeated: on the state it left,
    [connect] and the connection step of [call_api] return at once and
    change nothing, so no second handle is made and no second identity
    check is sent. *)
Theorem connect_not_repeated (s s1 : state) :
  connect config s = (Ok tt, s1) ->
  connect config s1 = (Ok tt, s1)
  /\ ensure_connected config s1 = (Ok tt, s1).
Proof.
  intros H. apply connect_ok_connected in H.
  unfold ensure_connected, connect, bind, get_connected, get_client, ret.
  rewrite H. unfold is_connected in H. rewrite H. now split.
Qed.

(** X4: the errors of [connect].  It raises a
    [KanboardAuthenticationError] or a [KanboardConnectionError], and the
    former exactly when the identity check raised an error of the
    transport's class.  In particular an identity check that answers
    [None] ends in a [KanboardConnectionError]: the authentication error
    raised for it inside the [try] block is caught by the block's own
    last clause and wrapped; the handle stays assigned and the flag is
    not set. *)
Theorem connect_error_classes (s s' : state) (e : exc) :
  connect config s = (Raise e, s') ->
  (exc_cls e = KanboardAuthenticationError \/ exc_cls e = KanboardConnectionError)
  /\ (exc_cls e = KanboardAuthenticationError <->
      exists h w1 e0 w2,
        open_client config (world s) = (Ok h, w1)
        /\ has_attr h "get_me" = true
        /\ invoke h "get_me" [] [] w1 = (Raise e0, w2)
        /\ is_kanboard_ClientError e0 = true)
  /\ (forall h w1 w2,
        open_client config (world s) = (Ok h, w1) ->
        has_attr h "get_me" = true ->
        invoke h "get_me" [] [] w1 = (Ok VNone, w2) ->
        e = new_exc KanboardConnectionError
              "Connection failed: Authentication failed - invalid credentials"
        /\ _client s' = Some h /\ _connected s' = _connected s).
Proof.
  unfold connect, _create_client, value_get. unfold_ops.
  destruct s as [c f w t]; cbn.
  destruct (f && match c with Some _ => true | None => false end);
    [discriminate|]. cbn.
  destruct (open_client config w) as [[h|e0] w1] eqn:Hopen; cbn.
  2:{ intros [= <- <-]. cbn. split; [now right|]. split.
      - split; [discriminate|]. intros (? & ? & ? & ? & [=] & _).
      - intros ? ? ? [=]. }
  destruct (has_attr h "get_me") eqn:Hattr; cbn.
  2:{ intros [= <- <-]. cbn. split; [now right|]. split.
      - split; [discriminate|].
        intros (h' & ? & ? & ? & [= <- <-] & Ha & _). congruence.
      - intros ? ? ? [= <- <-] Ha. congruence. }
  destruct (invoke h "get_me" [] [] w1) as [[v|e1] w2] eqn:Hinv; cbn.
  - destruct v; cbn; intros [= <- <-]; cbn;
      (split; [now right|]); (split;
        [ split; [discriminate|];
          intros (h' & w1' & ? & ? & [= <- <-] & _ & Hi & _); congruence
        | intros h' w1' w2' [= <- <-] _ Hi;
          rewrite Hinv in Hi; inversion Hi; repeat split ]).
  - destruct (is_kanboard_ClientError e1) eqn:Hk; cbn; intros [= <- <-]; cbn.
    + split; [now left|]. split.
      * split; [intros _|reflexivity].
        exists h, w1, e1, w2. repeat split; assumption.
      * intros h' w1' w2' [= <- <-] _ Hi. congruence.
    + split; [now right|]. split.
      * split; [discriminate|].
        intros (h' & w1' & e0' & w2' & [= <- <-] & _ & Hi & Hk').
        rewrite Hinv in Hi. inversion Hi; subst. congruence.
      * intros h' w1' w2' [= <- <-] _ Hi. congruence.
Qed.

(** *** Calls on a connected client *)

(** On a connected client a call neither connects nor disconnects. *)
Lemma call_api_connected_effects (m : string) (args : list value)
    (kwargs : list (string * value)) (s : state) :
  is_connected s = true ->
  exists d,
    trace (snd (call_api config m args kwargs s)) = trace s ++ d
    /\ (invocations d <= Z.to_nat (max_retries (server config) + 1))%nat
    /\ loop_events d.
Proof.
  intros Hc. unfold call_api, try_except, _execute_with_retry.
  unfold bind at 1. unfold ensure_connected. rewrite Hc. cbn [negb]. unfold ret at 1.
  unfold bind.
  destruct (retry_loop config m args kwargs _ None s) as [r1 s1] eqn:H1.
  apply retry_loop_effects in H1.
  destruct H1 as (_ & _ & d & Ht & Hl & Hi & _ & _).
  rewrite range_length in Hi.
  assert (Hlog : forall e,
    loop_events (d ++ [EvLog ERROR (LogCallApiUnexpected m e)])
    /\ (invocations (d ++ [EvLog ERROR (LogCallApiUnexpected m e)])
        <= Z.to_nat (max_retries (server config) + 1))%nat).
  { intros e. split.
    - apply loop_events_app; [exact Hl|]. now cbv.
    - unfold invocations in *. rewrite count_app. cbn. lia. }
  destruct r1 as [[v|last]|e1]; unfold ret, raise; cbn [find fst snd].
  - exists d. auto.
  - destruct (is_KanboardClientError _); cbn [snd].
    + exists d. auto.
    + unfold is_Exception, bind, log, emit, raise. cbn [snd trace].
      eexists. rewrite Ht, <- app_assoc. split; [reflexivity|]. split; apply Hlog.
  - destruct (is_KanboardClientError e1); cbn [snd].
    + exists d. auto.
    + unfold is_Exception, bind, log, emit, raise. cbn [snd trace].
      eexists. rewrite Ht, <- app_assoc. split; [reflexivity|]. split; apply Hlog.
Qed.

(** A call that returns leaves the client connected. *)
Lemma call_api_ok_connected (m : string) (args : list value)
    (kwargs : list (string * value)) (s s' : state) (v : value) :
  call_api config m args kwargs s = (Ok v, s') -> is_connected s' = true.
Proof.
  intros H.
  destruct (call_api_session m args kwargs s) as [Hc Hf]. rewrite H in Hc, Hf.
  cbn [snd] in Hc, Hf.
  assert (Hens : exists s0, ensure_connected config s = (Ok tt, s0)).
  { revert H. unfold call_api, try_except, _execute_with_retry. unfold bind at 1.
    destruct (ensure_connected config s) as [[[]|e0] s0]; [eauto|].
    cbn [find fst snd]. destruct (is_KanboardClientError e0); cbn [snd];
      unfold is_Exception, bind, log, emit, raise; discriminate. }
  destruct Hens as [s0 Hens]. rewrite Hens in Hc, Hf. cbn [snd] in Hc, Hf.
  apply ensure_connected_effects in Hens.
  destruct Hens as (d & _ & _ & _ & _ & _ & _ & Hok).
  unfold is_connected in *. now rewrite Hc, Hf.
Qed.

(** X5: [get_server_info] never raises and is all or nothing.  When the
    identity call fails, the version is never asked for; when either call
    fails, the result has [connected] false, the error's message, and
    [None] for both the version and the user, also when the user had been
    obtained.  The whole operation connects at most once and invokes at
    most [2 * (max_retries + 1)] methods. *)
Theorem get_server_info_all_or_nothing (s : state) :
  let failed (e : exc) :=
    [ ("server_version", VNone); ("user_info", VNone);
      ("api_url", VStr (url (kanboard config)));
      ("connected", VBool false); ("error", VStr (exc_str e)) ] in
  (exists entries,
     get_server_info config s
     = (Ok (VDict entries),
        match call_api config "get_me" [] [] s with
        | (Ok _, s1) => snd (call_api config "get_version" [] [] s1)
        | (Raise _, s1) => s1
        end)
     /\ entries
        = match call_api config "get_me" [] [] s with
          | (Ok user_info, s1) =>
              match fst (call_api config "get_version" [] [] s1) with
              | Ok version =>
                  [ ("server_version", version); ("user_info", user_info);
                    ("api_url", VStr (url (kanboard config)));
                    ("connected", VBool true) ]
              | Raise e => failed e
              end
          | (Raise e, _) => failed e
          end)
  /\ (exists d,
        trace (snd (get_server_info config s)) = trace s ++ d
        /\ (invocations d <= 2 * Z.to_nat (max_retries (server config) + 1))%nat
        /\ (count is_identity_check d <= 1)%nat
        /\ reconnects d = 0%nat).
Proof.
  cbv zeta. split.
  - unfold get_server_info, try_except, bind, ret.
    destruct (call_api config "get_me" [] [] s) as [[u|e] s1];
      [|eexists; split; reflexivity].
    destruct (call_api config "get_version" [] [] s1) as [[v|e] s2];
      eexists; split; reflexivity.
  - rewrite get_server_info_state.
    destruct (call_api_effects config "get_me" [] [] s) as (d1 & Ht1 & Hi1 & Hr1 & Hid1).
    destruct (call_api config "get_me" [] [] s) as [[u|e] s1] eqn:H1; cbn [snd] in *.
    + apply call_api_ok_connected in H1.
      destruct (call_api_connected_effects "get_version" [] [] s1 H1)
        as (d2 & Ht2 & Hi2 & Hr2 & Hid2 & _).
      exists (d1 ++ d2). rewrite Ht2, Ht1, app_assoc.
      unfold invocations, reconnects in *. rewrite !count_app.
      repeat split; lia.
    + exists d1. repeat split; auto. lia.
Qed.

(** X6: a [with] block on the client.  When [__enter__] returns, the block
    runs on the connected client and the statement ends with the block's
    own result or exception on a client that is disconnected again,
    whatever the block did; when [__enter__] raises, the block does not
    run, nothing is disconnected, and the statement ends as [connect]
    ended. *)
Theorem with_block_always_disconnects {A : Type} (body : M World Handle A)
    (s : state) :
  match connect config s with
  | (Ok _, s1) =>
      is_connected s1 = true
      /\ fst (with_client config body s) = fst (body s1)
      /\ _client (snd (with_client config body s)) = None
      /\ _connected (snd (with_client config body s)) = false
      /\ world (snd (with_client config body s)) = world (snd (body s1))
      /\ trace (snd (with_client config body s))
         = trace (snd (body s1)) ++ [EvLog INFO LogDisconnected]
  | (Raise e, s1) => with_client config body s = (Raise e, s1)
  end.
Proof.
  rewrite with_client_run.
  destruct (connect config s) as [[[]|e] s1] eqn:H; [|reflexivity].
  apply connect_ok_connected in H. cbn [fst snd _client _connected world trace].
  repeat split. exact H.
Qed.

(** *** Retrying until an answer decides *)

Lemma answers_cons (h : Handle) (m : string) (args : list value)
    (kwargs : list (string * value)) (n : nat) (w : World)
    (r : result value) (rs : list (result value)) :
  answers h m args kwargs (S n) w = r :: rs ->
  exists w', invoke h m args kwargs w = (r, w')
             /\ answers h m args kwargs n w' = rs.
Proof.
  cbn [answers]. destruct (invoke h m args kwargs w) as [r0 w'].
  intros [= -> <-]. eauto.
Qed.

(** When the answers to come are retryable failures followed by one
    answer that is not, the loop makes one attempt per answer, pauses
    after each failure, and ends with what the last answer decides. *)
Lemma retry_loop_decided (m : string) (args : list value)
    (kwargs : list (string * value)) (h : Handle) (r : result value)
    (fails : list (result value)) :
  sleep_error (retry_delay (server config)) = None ->
  has_attr h m = true ->
  retryable_failure r = false ->
  forallb retryable_failure fails = true ->
  forall (attempts : list Z) (last_exception : option exc) (s : state),
  _client s = Some h ->
  answers h m args kwargs (S (length fails)) (world s) = fails ++ [r] ->
  (length fails < length attempts)%nat ->
  exists s' d,
    retry_loop config m args kwargs attempts last_exception s = (decided r, s')
    /\ trace s' = trace s ++ d
    /\ loop_events d
    /\ invocations d = S (length fails)
    /\ sleeps d
       = length (filter (fun a => a <? max_retries (server config))
                   (firstn (length fails) attempts)).
Proof.
  intros Hdelay Hattr Hr.
  induction fails as [|f fails IH]; intros Hall attempts last s Hh Hans Hlen.
  - destruct attempts as [|attempt rest]; [cbn in Hlen; lia|].
    cbn [length app] in Hans. apply answers_cons in Hans.
    destruct Hans as (w' & Hinv & _).
    cbn [retry_loop]. unfold bind at 1.
    rewrite attempt_once_run, Hh, Hattr, Hinv.
    destruct r as [v|e]; cbv beta iota zeta.
    + destruct (debug (server config)); unfold ret, record; cbn [decided];
        do 2 eexists; (split; [reflexivity|]); cbn [trace];
        rewrite <- ?app_assoc; (split; [reflexivity|]); now cbv.
    + cbn [retryable_failure] in Hr. unfold retryable in Hr.
      unfold decided, terminal_error.
      destruct (classify e); try discriminate; unfold record;
        do 2 eexists; (split; [reflexivity|]); cbn [trace];
        rewrite <- ?app_assoc; (split; [reflexivity|]); now cbv.
  - destruct attempts as [|attempt rest]; [cbn in Hlen; lia|].
    cbn [length] in Hlen.
    cbn [forallb] in Hall. apply andb_true_iff in Hall. destruct Hall as [Hf Hall].
    cbn [length app] in Hans. apply answers_cons in Hans.
    destruct Hans as (w' & Hinv & Hans).
    destruct f as [v|e]; [discriminate|]. cbn [retryable_failure] in Hf.
    unfold retryable in Hf.
    cbn [retry_loop length firstn filter]. unfold bind at 1.
    rewrite attempt_once_run, Hh, Hattr, Hinv.
    destruct (classify e); try discriminate;
      cbv beta iota zeta; unfold bind;
      rewrite (pause_run _ _ _ Hdelay), record_record;
      match goal with
      | |- context [retry_loop _ _ _ _ _ _ ?s2] =>
          destruct (IH Hall rest (Some e) s2)
            as (s' & d & Hrun & Ht & Hl & Hi & Hs);
            [reflexivity | exact Hans | lia |];
          exists s'; eexists; (split; [exact Hrun|]);
          rewrite Ht; cbn [record trace]; rewrite <- !app_assoc;
          (split; [reflexivity|]);
          (split;
            [ repeat apply loop_events_app;
              first [ exact Hl
                    | destruct (attempt <? max_retries (server config)); now cbv ]
            | unfold invocations, sleeps in *; rewrite !count_app, Hi, Hs;
              destruct (attempt <? max_retries (server config)); now cbn ])
      end.
Qed.

Lemma firstn_seq_le (k : nat) :
  forall a n : nat, (k <= n)%nat -> firstn k (seq a n) = seq a k.
Proof.
  induction k as [|k IH]; intros a n Hk; [reflexivity|].
  destruct n as [|n]; [lia|]. cbn [seq firstn]. now rewrite IH by lia.
Qed.

(** The first [k] attempts of a call are all followed by the delay when
    [k <= max_retries]. *)
Lemma first_attempts_delayed (k : nat) :
  Z.of_nat k <= max_retries (server config) ->
  length (filter (fun a => a <? max_retries (server config))
            (firstn k (range (max_retries (server config) + 1))))
  = k.
Proof.
  intros Hk. unfold range.
  rewrite firstn_map, firstn_seq_le by lia.
  pose proof (attempts_before_last (Z.to_nat (max_retries (server config))) 0 k) as H.
  rewrite Z2Nat.id in H by lia. rewrite H by lia.
  now rewrite length_map, length_seq.
Qed.

(** Both outcomes at once, on the whole call. *)
Lemma call_api_decided (m : string) (args : list value)
    (kwargs : list (string * value)) (s s1 : state) (h : Handle)
    (fails : list (result value)) (r : result value) :
  sleep_error (retry_delay (server config)) = None ->
  ensure_connected config s = (Ok tt, s1) ->
  _client s1 = Some h ->
  has_attr h m = true ->
  answers h m args kwargs (S (length fails)) (world s1) = fails ++ [r] ->
  forallb retryable_failure fails = true ->
  retryable_failure r = false ->
  Z.of_nat (length fails) <= max_retries (server config) ->
  exists s' d,
    call_api config m args kwargs s
    = (match r with Ok v => Ok v | Raise e => Raise (terminal_error e) end, s')
    /\ trace s' = trace s ++ d
    /\ invocations d = S (length fails)
    /\ sleeps d = length fails
    /\ reconnects d = 0%nat.
Proof.
  intros Hdelay Hconn Hh Hattr Hans Hall Hr Hk.
  destruct (retry_loop_decided m args kwargs h r fails Hdelay Hattr Hr Hall
              (range (max_retries (server config) + 1)) None s1 Hh Hans)
    as (s' & d & Hrun & Ht & (Hrec & _) & Hi & Hs).
  { rewrite range_length. lia. }
  rewrite first_attempts_delayed in Hs by exact Hk.
  assert (Hexec : _execute_with_retry config m args kwargs s
                  = (match r with
                     | Ok v => Ok v
                     | Raise e => Raise (terminal_error e)
                     end, s')).
  { unfold _execute_with_retry. unfold bind at 1. rewrite Hconn.
    unfold bind. rewrite Hrun. now destruct r. }
  apply call_api_passes in Hexec.
  2:{ destruct r as [v|e]; [exact I|]. unfold terminal_error.
      now destruct (classify e). }
  apply ensure_connected_effects in Hconn.
  destruct Hconn as (d0 & Ht0 & Hi0 & Hr0 & Hs0 & _).
  exists s', (d0 ++ d). split; [exact Hexec|].
  rewrite Ht, Ht0, app_assoc. split; [reflexivity|].
  unfold invocations, sleeps, reconnects in *. rewrite !count_app. lia.
Qed.

(** X7: retry until the first success.  Under a delay [time.sleep]
    accepts, when the first [k] answers to the call are failures of a
    retryable kind, [k <= max_retries], and the next answer is a value,
    [call_api] returns that value after exactly [k + 1] invocations and
    [k] delays, without reconnecting. *)
Theorem call_api_returns_first_success (m : string) (args : list value)
    (kwargs : list (string * value)) (s s1 : state) (h : Handle)
    (fails : list (result value)) (v : value) :
  sleep_error (retry_delay (server config)) = None ->
  ensure_connected config s = (Ok tt, s1) ->
  _client s1 = Some h ->
  has_attr h m = true ->
  answers h m args kwargs (S (length fails)) (world s1) = fails ++ [Ok v] ->
  forallb retryable_failure fails = true ->
  Z.of_nat (length fails) <= max_retries (server config) ->
  exists s' d,
    call_api config m args kwargs s = (Ok v, s')
    /\ trace s' = trace s ++ d
    /\ invocations d = S (length fails)
    /\ sleeps d = length fails
    /\ reconnects d = 0%nat.
Proof.
  intros Hdelay Hconn Hh Hattr Hans Hall Hk.
  exact (call_api_decided m args kwargs s s1 h fails (Ok v)
           Hdelay Hconn Hh Hattr Hans Hall eq_refl Hk).
Qed.

(** X8: a failure of a terminal kind ends the call at whatever attempt it
    comes.  Under a delay [time.sleep] accepts, when the first [k]
    answers are failures of a retryable kind, [k <= max_retries], and the
    next is an error of the transport's class that speaks of
    authentication or carries a 4xx code, [call_api] raises the matching
    error after exactly [k + 1] invocations and [k] delays; the failures
    before it leave no mark on the error. *)
Theorem call_api_terminal_after_retries (m : string) (args : list value)
    (kwargs : list (string * value)) (s s1 : state) (h : Handle)
    (fails : list (result value)) (e : exc) :
  sleep_error (retry_delay (server config)) = None ->
  ensure_connected config s = (Ok tt, s1) ->
  _client s1 = Some h ->
  has_attr h m = true ->
  answers h m args kwargs (S (length fails)) (world s1) = fails ++ [Raise e] ->
  forallb retryable_failure fails = true ->
  is_kanboard_ClientError e = true ->
  mentions_auth e = true \/ has_4xx_code e = true ->
  Z.of_nat (length fails) <= max_retries (server config) ->
  exists s' d,
    call_api config m args kwargs s
    = (Raise (if mentions_auth e
              then new_exc KanboardAuthenticationError
                     ("Authentication failed: " ++ exc_str e)%string
              else new_exc KanboardAPIError ("API error: " ++ exc_str e)%string),
       s')
    /\ trace s' = trace s ++ d
    /\ invocations d = S (length fails)
    /\ sleeps d = length fails
    /\ reconnects d = 0%nat.
Proof.
  intros Hdelay Hconn Hh Hattr Hans Hall Hcls Hmsg Hk.
  destruct (classify_terminal e Hcls Hmsg) as [Hkind <-].
  assert (Hr : retryable_failure (Raise e) = false).
  { cbn. unfold retryable. now destruct Hkind as [-> | ->]. }
  exact (call_api_decided m args kwargs s s1 h fails (Raise e)
           Hdelay Hconn Hh Hattr Hans Hall Hr Hk).
Qed.

(** *** What is sent *)

Lemma requests_app (a b : list event) :
  filter is_api_call (a ++ b) = filter is_api_call a ++ filter is_api_call b.
Proof. apply filter_app. Qed.

Lemma no_requests (d : list event) :
  invocations d = 0%nat -> filter is_api_call d = [].
Proof.
  unfold invocations, count. now destruct (filter is_api_call d).
Qed.

(** A pass of the loop sends nothing but the request it was given. *)
Lemma attempt_once_requests (m : string) (args : list value)
    (kwargs : list (string * value)) (attempt : Z) (s s' : state) (r : result flow) :
  attempt_once config m args kwargs attempt s = (r, s') ->
  exists d n,
    trace s' = trace s ++ d
    /\ filter is_api_call d = repeat (EvInvoke ApiCall m args kwargs) n.
Proof.
  rewrite attempt_once_run. unfold record.
  destruct s as [c f w t]; cbn.
  destruct c as [h|]; cbn.
  - destruct (has_attr h m); cbn.
    + destruct (invoke h m args kwargs w) as [[v|e] w']; cbn.
      * destruct (debug (server config)); cbn; intros [= <- <-]; cbn;
          eexists; exists 1%nat; rewrite <- ?app_assoc; split; reflexivity.
      * destruct (classify e); cbn; intros [= <- <-]; cbn;
          eexists; exists 1%nat; rewrite <- ?app_assoc; split; reflexivity.
    + intros [= <- <-]; cbn. eexists; exists 0%nat. split; reflexivity.
  - intros [= <- <-]; cbn. eexists; exists 0%nat. split; reflexivity.
Qed.

Lemma retry_loop_requests (m : string) (args : list value)
    (kwargs : list (string * value)) (attempts : list Z) :
  forall (last_exception : option exc) (s s' : state) (r : result (value + option exc)),
  retry_loop config m args kwargs attempts last_exception s = (r, s') ->
  exists d n,
    trace s' = trace s ++ d
    /\ filter is_api_call d = repeat (EvInvoke ApiCall m args kwargs) n.
Proof.
  induction attempts as [|attempt rest IH]; intros last s s' r; cbn [retry_loop].
  - unfold ret. intros [= <- <-]. exists [], 0%nat. now rewrite app_nil_r.
  - unfold bind at 1.
    destruct (attempt_once config m args kwargs attempt s) as [r1 s1] eqn:H1.
    apply attempt_once_requests in H1. destruct H1 as (d1 & n1 & Ht1 & Hq1).
    destruct r1 as [[v|last']|e].
    + unfold ret. intros [= <- <-]. eauto.
    + unfold bind.
      destruct (attempt <? max_retries (server config)).
      * unfold sleep.
        destruct (sleep_error (retry_delay (server config))) as [e|].
        -- unfold raise. intros [= <- <-]. eauto.
        -- unfold emit. intros H2. apply IH in H2.
           destruct H2 as (d2 & n2 & Ht2 & Hq2). cbn [trace] in Ht2.
           exists (d1 ++ [EvSleep (retry_delay (server config))] ++ d2), (n1 + n2)%nat.
           rewrite Ht2, Ht1, <- !app_assoc. split; [reflexivity|].
           rewrite !requests_app, Hq1, Hq2. cbn. now rewrite repeat_app.
      * unfold ret. intros H2. apply IH in H2.
        destruct H2 as (d2 & n2 & Ht2 & Hq2).
        exists (d1 ++ d2), (n1 + n2)%nat.
        rewrite Ht2, Ht1, <- !app_assoc. split; [reflexivity|].
        now rewrite requests_app, Hq1, Hq2, repeat_app.
    + intros [= <- <-]. eauto.
Qed.

(** The whole call sends nothing but the request it was given. *)
Lemma call_api_requests (m : string) (args : list value)
    (kwargs : list (string * value)) (s : state) :
  exists d,
    trace (snd (call_api config m args kwargs s)) = trace s ++ d
    /\ filter is_api_call d
       = repeat (EvInvoke ApiCall m args kwargs) (invocations d).
Proof.
  assert (Hexec : exists d n,
    trace (snd (_execute_with_retry config m args kwargs s)) = trace s ++ d
    /\ filter is_api_call d = repeat (EvInvoke ApiCall m args kwargs) n).
  { unfold _execute_with_retry. unfold bind at 1.
    destruct (ensure_connected config s) as [[[]|e0] s0] eqn:H0;
      apply ensure_connected_effects in H0;
      destruct H0 as (d0 & Ht0 & Hi0 & _); apply no_requests in Hi0.
    - unfold bind.
      destruct (retry_loop config m args kwargs _ None s0) as [r1 s1] eqn:H1.
      apply retry_loop_requests in H1. destruct H1 as (d1 & n & Ht1 & Hq1).
      exists (d0 ++ d1), n.
      destruct r1 as [[v|last]|e1]; unfold ret, raise; cbn [snd];
        rewrite Ht1, Ht0, <- app_assoc, requests_app, Hi0; now split.
    - cbn [snd]. exists d0, 0%nat. now split. }
  destruct Hexec as (d & n & Ht & Hq).
  assert (Hn : forall d', filter is_api_call d' = repeat (EvInvoke ApiCall m args kwargs) n ->
                          filter is_api_call d'
                          = repeat (EvInvoke ApiCall m args kwargs) (invocations d')).
  { intros d' H. unfold invocations, count. now rewrite H, repeat_length. }
  unfold call_api, try_except.
  destruct (_execute_with_retry config m args kwargs s) as [[v|e] s'];
    cbn [snd find fst] in *.
  - exists d. auto.
  - destruct (is_KanboardClientError e); cbn [snd].
    + exists d. auto.
    + unfold is_Exception, bind, log, emit, raise. cbn [snd trace].
      exists (d ++ [EvLog ERROR (LogCallApiUnexpected m e)]).
      rewrite Ht, <- app_assoc. split; [reflexivity|].
      apply Hn. rewrite requests_app, Hq. cbn. apply app_nil_r.
Qed.

(** X19: retrying never alters the request.  Every invocation made in a
    run of [call_api] is an invocation of the method that was asked for,
    with the positional and keyword arguments that were given. *)
Theorem call_api_invokes_only_request (m : string) (args : list value)
    (kwargs : list (string * value)) (s : state) :
  exists d,
    trace (snd (call_api config m args kwargs s)) = trace s ++ d
    /\ filter is_api_call d
       = repeat (EvInvoke ApiCall m args kwargs) (invocations d)
    /\ Forall (fun ev => is_api_call ev = true ->
                         ev = EvInvoke ApiCall m args kwargs) d.
Proof.
  destruct (call_api_requests m args kwargs s) as (d & Ht & Hq).
  exists d. split; [exact Ht|]. split; [exact Hq|].
  apply Forall_forall. intros ev Hin Hev.
  assert (Hf : In ev (filter is_api_call d)) by (apply filter_In; now split).
  rewrite Hq in Hf. now apply repeat_spec in Hf.
Qed.

End WithTransport.

End ClientMore.

(** ** More on the configuration *)

Module ConfigMore.

Import PyStr PyStrFacts Config ConfigFacts.

Lemma startswith_app_self (v t : string) : startswith v (v ++ t) = true.
Proof.
  unfold startswith. induction v as [|c v IH]; simpl; [now destruct t|].
  now destruct (ascii_dec c c).
Qed.

Lemma startswith_refl (v : string) : startswith v v = true.
Proof.
  unfold startswith. induction v as [|c v IH]; simpl; [reflexivity|].
  now destruct (ascii_dec c c).
Qed.

Lemma length_append (a b : string) :
  String.length (a ++ b) = (String.length a + String.length b)%nat.
Proof. induction a as [|c a IH]; simpl; [reflexivity | now rewrite IH]. Qed.

(** What [validate_url] returns starts with the input, ends with the
    endpoint path, keeps the scheme and adds at most twelve characters. *)
Lemma validate_url_result (v u : string) :
  validate_url v = Ok u ->
  startswith v u = true
  /\ endswith "/jsonrpc.php" u = true
  /\ has_http_scheme u = true
  /\ (String.length u <= String.length v + 12)%nat.
Proof.
  unfold validate_url.
  destruct (falsy v) eqn:Hf; [discriminate|].
  destruct (has_http_scheme v) eqn:Hs; [|discriminate]. cbn [negb].
  destruct (endswith "/jsonrpc.php" v) eqn:He; cbn [negb].
  - intros [= <-]. repeat split; auto using startswith_refl. lia.
  - destruct (endswith "/" v) eqn:Hslash; intros [= <-].
    + pose proof (endswith_app_both "/" "jsonrpc.php" v Hslash) as E.
      cbn [append] in E.
      repeat split; auto using startswith_app_self, has_http_scheme_app.
      rewrite length_append. cbn. lia.
    + repeat split;
        auto using startswith_app_self, has_http_scheme_app, endswith_app.
      rewrite length_append. cbn. lia.
Qed.

Lemma validate_url_accepts (v : string) :
  has_http_scheme v = true -> exists u, validate_url v = Ok u.
Proof.
  intros Hs. unfold validate_url.
  rewrite (has_http_scheme_nonempty _ Hs), Hs. cbn [negb].
  destruct (endswith "/jsonrpc.php" v); cbn [negb]; [eauto|].
  destruct (endswith "/" v); eauto.
Qed.

(** X9: [validate_url] accepts exactly the strings that start with
    [http://] or [https://].  What it returns for one of them starts with
    the input, ends with [/jsonrpc.php], keeps the scheme and is at most
    twelve characters longer; what it raises for any other string is a
    [ValueError], with one message for the empty string and another for
    the rest. *)
Theorem validate_url_accepts_exactly (v : string) :
  if has_http_scheme v then
    exists u,
      validate_url v = Ok u
      /\ startswith v u = true
      /\ endswith "/jsonrpc.php" u = true
      /\ has_http_scheme u = true
      /\ (String.length u <= String.length v + 12)%nat
  else
    validate_url v
    = Raise (new_exc ValueError
               (if falsy v then "Kanboard URL is required"
                else "URL must start with http:// or https://")).
Proof.
  destruct (has_http_scheme v) eqn:Hs.
  - destruct (validate_url_accepts v Hs) as [u Hu].
    exists u. split; [exact Hu|]. now apply validate_url_result.
  - unfold validate_url. rewrite Hs. now destruct (falsy v).
Qed.

Section Loading.

Variable int_of_str : string -> result Z.
Variable float_of_str : string -> result float.
Variable validation_message : string -> list (string * exc) -> string.

#[local] Abbreviation from_env_ := (from_env int_of_str float_of_str validation_message).
#[local] Abbreviation load_config_ := (load_config int_of_str float_of_str validation_message).

(** What the parts of an accepted environment are. *)
Lemma from_env_ok (env : environ) (c : Config) :
  from_env_ env = Ok c ->
  exists u,
    validate_url (getenv env "KANBOARD_URL" "") = Ok u
    /\ validate_password (getenv env "KANBOARD_API_TOKEN" "")
       = Ok (getenv env "KANBOARD_API_TOKEN" "")
    /\ int_of_str (getenv env "KANBOARD_TIMEOUT" "30") = Ok (timeout (kanboard c))
    /\ validate_timeout (timeout (kanboard c)) = Ok (timeout (kanboard c))
    /\ int_of_str (getenv env "KANBOARD_MAX_RETRIES" "3")
       = Ok (max_retries (server c))
    /\ validate_max_retries (max_retries (server c)) = Ok (max_retries (server c))
    /\ float_of_str (getenv env "KANBOARD_RETRY_DELAY" "1.0")
       = Ok (retry_delay (server c))
    /\ validate_retry_delay (retry_delay (server c)) = Ok (retry_delay (server c))
    /\ c = mkConfig
             (mkKanboardConfig u
                (getenv env "KANBOARD_USERNAME" "jsonrpc")
                (getenv env "KANBOARD_API_TOKEN" "")
                (env "KANBOARD_AUTH_HEADER")
                (String.eqb (lower (getenv env "KANBOARD_VERIFY_SSL" "true")) "true")
                (timeout (kanboard c)))
             (mkMCPServerConfig
                (getenv env "MCP_SERVER_NAME" "Kanboard MCP Server")
                (getenv env "MCP_SERVER_VERSION" "0.1.0")
                (String.eqb (lower (getenv env "DEBUG" "false")) "true")
                (max_retries (server c)) (retry_delay (server c))).
Proof.
  unfold from_env, and_then, new_KanboardConfig, new_MCPServerConfig.
  destruct (int_of_str (getenv env "KANBOARD_TIMEOUT" "30")) as [t|?]; [|discriminate].
  destruct (validate_url (getenv env "KANBOARD_URL" "")) as [u|?] eqn:Hu.
  2:{ destruct (validate_password _), (validate_timeout t); discriminate. }
  destruct (validate_password (getenv env "KANBOARD_API_TOKEN" "")) as [p|?] eqn:Hp.
  2:{ destruct (validate_timeout t); discriminate. }
  destruct (validate_timeout t) as [t'|?] eqn:Ht; [|discriminate].
  destruct (int_of_str (getenv env "KANBOARD_MAX_RETRIES" "3")) as [n|?]; [|discriminate].
  destruct (float_of_str (getenv env "KANBOARD_RETRY_DELAY" "1.0")) as [d|?];
    [|discriminate].
  destruct (validate_max_retries n) as [n'|?] eqn:Hn.
  2:{ destruct (validate_retry_delay d); discriminate. }
  destruct (validate_retry_delay d) as [d'|?] eqn:Hd; [|discriminate].
  assert (p = getenv env "KANBOARD_API_TOKEN" "") as ->.
  { revert Hp. unfold validate_password. destruct (falsy _); congruence. }
  assert (t' = t) as ->.
  { revert Ht. unfold validate_timeout. destruct (t <=? 0); congruence. }
  assert (n' = n) as ->.
  { revert Hn. unfold validate_max_retries. destruct (n <? 0); congruence. }
  assert (d' = d) as ->.
  { revert Hd. unfold validate_retry_delay. destruct (PrimFloat.ltb d 0); congruence. }
  intros [= <-]. cbn. exists u. repeat split; assumption.
Qed.

Lemma validate_config_after_from_env (env : environ) (c : Config) :
  from_env_ env = Ok c ->
  validate_config c = Ok tt /\ load_config_ env = Ok c.
Proof.
  intros H. pose proof (from_env_ok env c H) as (u & Hu & Hp & _ & _ & _ & _ & _ & _ & Hc).
  assert (Hv : validate_config c = Ok tt).
  { rewrite Hc. unfold validate_config. cbn.
    destruct (validate_url_result _ _ Hu) as (_ & _ & Hs & _).
    rewrite (has_http_scheme_nonempty _ Hs).
    revert Hp. unfold validate_password.
    now destruct (falsy (getenv env "KANBOARD_API_TOKEN" "")). }
  split; [exact Hv|]. unfold load_config, and_then. now rewrite H, Hv.
Qed.

Lemma validate_config_redundant_lemma (env : environ) (c : Config) :
  from_env_ env = Ok c -> load_config_ env = Ok c.
Proof. intros H. now apply validate_config_after_from_env. Qed.

(** X13: the second validation in [load_config] never fails: a
    configuration made by [from_env] has a URL and a token, so
    [validate_config] returns on it and [load_config] returns exactly
    what [from_env] returns. *)
Theorem validate_config_redundant (env : environ) (c : Config) :
  from_env_ env = Ok c ->
  validate_config c = Ok tt /\ load_config_ env = Ok c.
Proof. exact (validate_config_after_from_env env c). Qed.

Lemma load_config_ok_from_env (env : environ) (c : Config) :
  load_config_ env = Ok c -> from_env_ env = Ok c.
Proof.
  unfold load_config, and_then.
  destruct (from_env_ env) as [c0|e]; [|discriminate].
  destruct (validate_config c0) as [[]|e]; [|discriminate]. congruence.
Qed.

Lemma load_config_raise_shape (env : environ) (e : exc) :
  load_config_ env = Raise e ->
  exists e0, e = new_exc ValueError ("Configuration error: " ++ exc_str e0).
Proof.
  unfold load_config, and_then.
  destruct (from_env_ env) as [c|e0]; [|intros [= <-]; eexists; reflexivity].
  destruct (validate_config c) as [[]|e0]; [discriminate|].
  intros [= <-]. eexists; reflexivity.
Qed.

(** X10: [load_config] accepts exactly the environments in which the
    timeout and the retry count read as integers, the former positive and
    the latter not negative, the delay reads as a float that is not below
    zero, the URL has an [http://] or [https://] scheme and the token is
    not empty (an unset variable counting with its default). *)
Theorem load_config_accepts_exactly (env : environ) :
  (exists c, load_config_ env = Ok c)
  <-> (exists t n d,
         int_of_str (getenv env "KANBOARD_TIMEOUT" "30") = Ok t /\ 0 < t
         /\ has_http_scheme (getenv env "KANBOARD_URL" "") = true
         /\ getenv env "KANBOARD_API_TOKEN" "" <> ""
         /\ int_of_str (getenv env "KANBOARD_MAX_RETRIES" "3") = Ok n /\ 0 <= n
         /\ float_of_str (getenv env "KANBOARD_RETRY_DELAY" "1.0") = Ok d
         /\ PrimFloat.ltb d 0%float = false).
Proof.
  split.
  - intros [c H]. apply load_config_ok_from_env in H.
    destruct (from_env_ok env c H)
      as (u & Hu & Hp & Ht & Hvt & Hn & Hvn & Hd & Hvd & _).
    exists (timeout (kanboard c)), (max_retries (server c)), (retry_delay (server c)).
    repeat split; try assumption.
    + revert Hvt. unfold validate_timeout.
      destruct (Z.leb_spec (timeout (kanboard c)) 0); [discriminate | lia].
    + revert Hu. unfold validate_url.
      destruct (falsy _); [discriminate|].
      now destruct (has_http_scheme (getenv env "KANBOARD_URL" "")).
    + intros E. rewrite E in Hp. discriminate.
    + now apply ClientFacts.validate_max_retries_ok.
    + revert Hvd. unfold validate_retry_delay.
      now destruct (PrimFloat.ltb (retry_delay (server c)) 0).
  - intros (t & n & d & Ht & Htp & Hs & Hp & Hn & Hnp & Hd & Hdp).
    destruct (validate_url_accepts _ Hs) as [u Hu].
    assert (Hfrom : exists c, from_env_ env = Ok c).
    { unfold from_env, and_then, new_KanboardConfig, new_MCPServerConfig.
      rewrite Ht, Hu, Hn, Hd.
      unfold validate_password, validate_timeout, validate_max_retries,
        validate_retry_delay.
      rewrite Hdp.
      destruct (getenv env "KANBOARD_API_TOKEN" "") eqn:E; [congruence|]. cbn [falsy].
      destruct (Z.leb_spec t 0); [lia|]. destruct (Z.ltb_spec n 0); [lia|].
      eauto. }
    destruct Hfrom as [c Hc]. exists c.
    now apply validate_config_redundant_lemma.
Qed.

(** X11: what a loaded configuration is.  Its URL is the normal form of
    the given one and ends with [/jsonrpc.php]; its token is the given
    one and is not empty; its timeout is positive, its retry count not
    negative and its delay not below zero; certificates are verified, and
    debugging is on, exactly when the variable, in lower case, is the
    word [true]. *)
Theorem load_config_result (env : environ) (c : Config) :
  load_config_ env = Ok c ->
  validate_url (getenv env "KANBOARD_URL" "") = Ok (url (kanboard c))
  /\ endswith "/jsonrpc.php" (url (kanboard c)) = true
  /\ has_http_scheme (url (kanboard c)) = true
  /\ password (kanboard c) = getenv env "KANBOARD_API_TOKEN" ""
  /\ password (kanboard c) <> ""
  /\ 0 < timeout (kanboard c)
  /\ 0 <= max_retries (server c)
  /\ PrimFloat.ltb (retry_delay (server c)) 0%float = false
  /\ verify_ssl (kanboard c)
     = String.eqb (lower (getenv env "KANBOARD_VERIFY_SSL" "true")) "true"
  /\ debug (server c)
     = String.eqb (lower (getenv env "DEBUG" "false")) "true"
  /\ auth_header (kanboard c) = env "KANBOARD_AUTH_HEADER".
Proof.
  intros H. apply load_config_ok_from_env in H.
  destruct (from_env_ok env c H)
    as (u & Hu & Hp & Ht & Hvt & Hn & Hvn & Hd & Hvd & Hc).
  assert (Hurl : url (kanboard c) = u) by (rewrite Hc; reflexivity).
  assert (Hpw : password (kanboard c) = getenv env "KANBOARD_API_TOKEN" "")
    by (rewrite Hc; reflexivity).
  rewrite Hurl, Hpw.
  destruct (validate_url_result _ _ Hu) as (_ & He & Hs & _).
  repeat split; try assumption; try (rewrite Hc; reflexivity).
  - intros E. rewrite E in Hp. discriminate.
  - revert Hvt. unfold validate_timeout.
    destruct (Z.leb_spec (timeout (kanboard c)) 0); [discriminate | lia].
  - now apply ClientFacts.validate_max_retries_ok.
  - revert Hvd. unfold validate_retry_delay.
    now destruct (PrimFloat.ltb (retry_delay (server c)) 0).
Qed.

(** X12: without a URL or without a token nothing is loaded: when either
    variable is unset or empty, [load_config] raises, and what it raises
    is a [ValueError] whose message starts with [Configuration error: ]. *)
Theorem load_config_requires_url_and_token (env : environ) :
  getenv env "KANBOARD_URL" "" = "" \/ getenv env "KANBOARD_API_TOKEN" "" = "" ->
  exists e,
    load_config_ env = Raise e
    /\ exc_cls e = ValueError
    /\ startswith "Configuration error: " (exc_str e) = true.
Proof.
  intros Hmissing.
  destruct (load_config_ env) as [c|e] eqn:H.
  - exfalso. apply load_config_ok_from_env in H.
    destruct (from_env_ok env c H) as (u & Hu & Hp & _).
    destruct Hmissing as [E|E].
    + rewrite E in Hu. discriminate.
    + rewrite E in Hp. discriminate.
  - exists e. split; [reflexivity|].
    destruct (load_config_raise_shape env e H) as [e0 ->].
    split; [reflexivity|]. apply startswith_app_self.
Qed.

(** X14: the defaults.  With a URL that has a scheme and a token that is
    not empty as the only variables set, [load_config] returns the normal
    form of the URL, the token, the user [jsonrpc], no header of its own,
    verified certificates, a timeout of 30, 3 retries with a delay of 1,
    and debugging off. *)
Theorem load_config_defaults (env : environ) (given_url token : string) :
  int_of_str "30" = Ok 30 ->
  int_of_str "3" = Ok 3 ->
  float_of_str "1.0" = Ok 1%float ->
  env "KANBOARD_URL" = Some given_url ->
  env "KANBOARD_API_TOKEN" = Some token ->
  (forall name, name <> "KANBOARD_URL" -> name <> "KANBOARD_API_TOKEN" ->
                env name = None) ->
  has_http_scheme given_url = true ->
  token <> "" ->
  exists u,
    validate_url given_url = Ok u
    /\ load_config_ env
       = Ok (mkConfig
               (mkKanboardConfig u "jsonrpc" token None true 30)
               (mkMCPServerConfig "Kanboard MCP Server" "0.1.0" false 3 1%float)).
Proof.
  intros H30 H3 H1 Hurl Htok Hrest Hs Hne.
  destruct (validate_url_accepts _ Hs) as [u Hu]. exists u. split; [exact Hu|].
  apply validate_config_redundant_lemma.
  unfold from_env, and_then, new_KanboardConfig, new_MCPServerConfig, getenv.
  rewrite Hurl, Htok, !Hrest by discriminate.
  rewrite H30, H3, H1, Hu.
  unfold validate_password. destruct token; [congruence|]. reflexivity.
Qed.

End Loading.

End ConfigMore.

(** ** The tools *)

Module ToolFacts.

Import Config Client ClientFacts Tools.
Local Open Scope list_scope.

(** *** Keyword arguments *)

Lemma assoc_app (key : string) (a b : list (string * value)) :
  assoc key (a ++ b)
  = match assoc key a with
    | Some v => Some v
    | None => assoc key b
    end.
Proof.
  induction a as [|[k v] a IH]; cbn [app assoc]; [reflexivity|].
  now destruct (String.eqb k key).
Qed.

Lemma assoc_optional {A : Type} (key k : string) (inject : A -> value) (x : option A) :
  assoc key (optional k inject x)
  = if String.eqb k key then option_map inject x else None.
Proof.
  destruct x as [a|]; cbn; now destruct (String.eqb k key).
Qed.

Lemma given_keys_incl (fields : list (string * bool)) (k : string) :
  In k (given_keys fields) -> In k (map fst fields).
Proof.
  induction fields as [|[k' [|]] rest IH]; cbn; intuition.
Qed.

Lemma given_keys_NoDup (fields : list (string * bool)) :
  NoDup (map fst fields) -> NoDup (given_keys fields).
Proof.
  induction fields as [|[k [|]] rest IH]; cbn; intros H; inversion H; subst.
  - constructor.
  - constructor; [|now apply IH]. intros Hin. now apply given_keys_incl in Hin.
  - now apply IH.
Qed.

Lemma keys_optional {A : Type} (k : string) (inject : A -> value) (x : option A) :
  map fst (optional k inject x) = given_keys [ (k, given x) ].
Proof. now destruct x. Qed.

Lemma given_keys_app (a b : list (string * bool)) :
  given_keys (a ++ b) = given_keys a ++ given_keys b.
Proof.
  induction a as [|[k [|]] a IH]; cbn; [reflexivity | now rewrite IH | exact IH].
Qed.

Lemma no_none_optional {A : Type} (k : string) (inject : A -> value) (x : option A) :
  (forall a, inject a <> VNone) ->
  Forall (fun kv => snd kv <> VNone) (optional k inject x).
Proof. intros H. destruct x; cbn; constructor; cbn; auto. Qed.

Ltac no_none :=
  repeat (apply Forall_app; split);
  first [ apply no_none_optional; intros; discriminate
        | repeat constructor; discriminate ].

Ltac distinct_keys :=
  repeat (constructor; [cbn; intuition discriminate|]); constructor.

(** X17: the keyword arguments of [createTask], [updateTask] and
    [searchTasks].  The required parameters are always sent, an optional
    one is sent under its own name exactly when it was given, no name is
    sent twice, and no value sent is [None]: what was left out is
    absent, not null. *)
Theorem keyword_arguments_as_given :
  (forall project_id title description category_id owner_id creator_id date_due
          color_id column_id swimlane_id priority reference tags,
     let data := create_task_data project_id title description category_id owner_id
                   creator_id date_due color_id column_id swimlane_id priority
                   reference tags in
     NoDup (map fst data)
     /\ Forall (fun kv => snd kv <> VNone) data
     /\ assoc "project_id" data = Some (VInt project_id)
     /\ assoc "title" data = Some (VStr title)
     /\ assoc "description" data = option_map VStr description
     /\ assoc "category_id" data = option_map VInt category_id
     /\ assoc "owner_id" data = option_map VInt owner_id
     /\ assoc "creator_id" data = option_map VInt creator_id
     /\ assoc "date_due" data = option_map VStr date_due
     /\ assoc "color_id" data = option_map VStr color_id
     /\ assoc "column_id" data = option_map VInt column_id
     /\ assoc "swimlane_id" data = option_map VInt swimlane_id
     /\ assoc "priority" data = option_map VInt priority
     /\ assoc "reference" data = option_map VStr reference
     /\ assoc "tags" data = option_map str_list tags)
  /\ (forall task_id title description category_id owner_id date_due color_id
             priority reference,
        let data := update_task_data task_id title description category_id owner_id
                      date_due color_id priority reference in
        NoDup (map fst data)
        /\ Forall (fun kv => snd kv <> VNone) data
        /\ assoc "id" data = Some (VInt task_id)
        /\ assoc "title" data = option_map VStr title
        /\ assoc "description" data = option_map VStr description
        /\ assoc "category_id" data = option_map VInt category_id
        /\ assoc "owner_id" data = option_map VInt owner_id
        /\ assoc "date_due" data = option_map VStr date_due
        /\ assoc "color_id" data = option_map VStr color_id
        /\ assoc "priority" data = option_map VInt priority
        /\ assoc "reference" data = option_map VStr reference)
  /\ (forall project_id query category_id owner_id due_date status_id,
        let data := search_params project_id query category_id owner_id due_date
                      status_id in
        NoDup (map fst data)
        /\ Forall (fun kv => snd kv <> VNone) data
        /\ assoc "project_id" data = Some (VInt project_id)
        /\ assoc "query" data = Some (VStr query)
        /\ assoc "category_id" data = option_map VInt category_id
        /\ assoc "owner_id" data = option_map VInt owner_id
        /\ assoc "due_date" data = option_map VStr due_date
        /\ assoc "status_id" data = option_map VInt status_id).
Proof.
  split; [|split]; intros; subst data.
  - split; [|split].
    + unfold create_task_data. rewrite !map_app, !keys_optional. cbn [map fst].
      change ["project_id"; "title"]
        with (given_keys [("project_id", true); ("title", true)]).
      rewrite <- !given_keys_app. apply given_keys_NoDup. cbn. distinct_keys.
    + unfold create_task_data. no_none.
    + unfold create_task_data.
      repeat split; rewrite ?assoc_app, ?assoc_optional; cbn;
        rewrite ?assoc_app, ?assoc_optional; cbn; try reflexivity;
        repeat match goal with |- context [option_map _ ?x] => destruct x; cbn end;
        reflexivity.
  - split; [|split].
    + unfold update_task_data. rewrite !map_app, !keys_optional. cbn [map fst].
      change ["id"] with (given_keys [("id", true)]).
      rewrite <- !given_keys_app. apply given_keys_NoDup. cbn. distinct_keys.
    + unfold update_task_data. no_none.
    + unfold update_task_data.
      repeat split; rewrite ?assoc_app, ?assoc_optional; cbn;
        rewrite ?assoc_app, ?assoc_optional; cbn; try reflexivity;
        repeat match goal with |- context [option_map _ ?x] => destruct x; cbn end;
        reflexivity.
  - split; [|split].
    + unfold search_params. rewrite !map_app, !keys_optional. cbn [map fst].
      change ["project_id"; "query"]
        with (given_keys [("project_id", true); ("query", true)]).
      rewrite <- !given_keys_app. apply given_keys_NoDup. cbn. distinct_keys.
    + unfold search_params. no_none.
    + unfold search_params.
      repeat split; rewrite ?assoc_app, ?assoc_optional; cbn;
        rewrite ?assoc_app, ?assoc_optional; cbn; try reflexivity;
        repeat match goal with |- context [option_map _ ?x] => destruct x; cbn end;
        reflexivity.
Qed.

Section WithTransport.

Context {World Handle : Type} {transport : Transport World Handle}.

Variable config : Config.

#[local] Abbreviation tool_state := (Tools.tool_state World Handle).

(** *** Tools that wrap the result as it is *)

Lemma call_api_raises_own (m : string) (args : list value)
    (kwargs : list (string * value)) (s s' : Client.state World Handle) (e : exc) :
  call_api config m args kwargs s = (Raise e, s') ->
  is_KanboardClientError e = true.
Proof.
  unfold call_api, try_except.
  destruct (_execute_with_retry config m args kwargs s) as [[v|e0] s0];
    [discriminate|]. cbn [find fst snd].
  destruct (is_KanboardClientError e0) eqn:Hk; cbn [snd].
  - unfold raise. now intros [= <- <-].
  - unfold is_Exception, bind, log, emit, raise. now intros [= <- <-].
Qed.

(** A tool whose wrapping returns never raises: every error of the call
    is of the class the tool catches. *)
Lemma tool_caught (m : string) (args : list value) (kwargs : list (string * value))
    (wrap : value -> result value) (context : string) (ts : tool_state) :
  (forall x, exists d, wrap x = Ok d) ->
  tool config m args kwargs wrap context ts
  = caught wrap context ts (call_api config m args kwargs (client ts)).
Proof.
  intros Hwrap. unfold tool, caught.
  destruct (call_api config m args kwargs (client ts)) as [[x|e] s'] eqn:H.
  - destruct (Hwrap x) as [d ->]. reflexivity.
  - now rewrite (call_api_raises_own _ _ _ _ _ _ H).
Qed.

Lemma success_data_returns (x : value) : exists d, success_data x = Ok d.
Proof. unfold success_data. eauto. Qed.

Lemma success_keyed_returns (key : string) (x : value) :
  exists d, success_keyed key x = Ok d.
Proof. unfold success_keyed. eauto. Qed.

(** X15: the tools of [tasks.py] that wrap the result as it is never
    raise.  Each of the seven ([getTask], [getTaskByReference],
    [openTask], [closeTask], [removeTask], [createTask], [updateTask])
    returns the success envelope around the result when its call
    returns, and otherwise the failure envelope with the message of the
    call's error, after one line in its log; the client is left as the
    call left it.  So the answer of each of them is a dict whose
    [success] is a boolean, with an [error] string when it is false. *)
Theorem plain_task_tools_never_raise (ts : tool_state) :
  (forall task_id,
     getTask config task_id ts
     = caught success_data ("Error getting task " ++ PyStr.of_int task_id) ts
         (call_api config "get_task" [ VInt task_id ] [] (client ts)))
  /\ (forall project_id reference,
        getTaskByReference config project_id reference ts
        = caught success_data
            ("Error getting task with reference '" ++ reference
             ++ "' in project " ++ PyStr.of_int project_id) ts
            (call_api config "get_task_by_reference"
               [ VInt project_id; VStr reference ] [] (client ts)))
  /\ (forall task_id,
        openTask config task_id ts
        = caught (success_keyed "opened")
            ("Error opening task " ++ PyStr.of_int task_id) ts
            (call_api config "open_task" [ VInt task_id ] [] (client ts)))
  /\ (forall task_id,
        closeTask config task_id ts
        = caught (success_keyed "closed")
            ("Error closing task " ++ PyStr.of_int task_id) ts
            (call_api config "close_task" [ VInt task_id ] [] (client ts)))
  /\ (forall task_id,
        removeTask config task_id ts
        = caught (success_keyed "removed")
            ("Error removing task " ++ PyStr.of_int task_id) ts
            (call_api config "remove_task" [ VInt task_id ] [] (client ts)))
  /\ (forall project_id title description category_id owner_id creator_id date_due
             color_id column_id swimlane_id priority reference tags,
        createTask config project_id title description category_id owner_id
          creator_id date_due color_id column_id swimlane_id priority reference
          tags ts
        = caught (success_keyed "task_id") "Error creating task" ts
            (call_api config "create_task" []
               (create_task_data project_id title description category_id owner_id
                  creator_id date_due color_id column_id swimlane_id priority
                  reference tags)
               (client ts)))
  /\ (forall task_id title description category_id owner_id date_due color_id
             priority reference,
        updateTask config task_id title description category_id owner_id date_due
          color_id priority reference ts
        = caught (success_keyed "updated")
            ("Error updating task " ++ PyStr.of_int task_id) ts
            (call_api config "update_task" []
               (update_task_data task_id title description category_id owner_id
                  date_due color_id priority reference)
               (client ts)))
  /\ (forall (run : T World Handle value),
        (exists task_id, run = getTask config task_id)
        \/ (exists project_id reference,
              run = getTaskByReference config project_id reference)
        \/ (exists task_id, run = openTask config task_id)
        \/ (exists task_id, run = closeTask config task_id)
        \/ (exists task_id, run = removeTask config task_id)
        \/ (exists project_id title description category_id owner_id creator_id
                   date_due color_id column_id swimlane_id priority reference tags,
              run = createTask config project_id title description category_id
                      owner_id creator_id date_due color_id column_id swimlane_id
                      priority reference tags)
        \/ (exists task_id title description category_id owner_id date_due
                   color_id priority reference,
              run = updateTask config task_id title description category_id
                      owner_id date_due color_id priority reference) ->
        exists entries,
          fst (run ts) = Ok (VDict entries)
          /\ (assoc "success" entries = Some (VBool true)
              \/ (assoc "success" entries = Some (VBool false)
                  /\ exists msg, assoc "error" entries = Some (VStr msg)))).
Proof.
  repeat split; intros;
    try (apply tool_caught; auto using success_data_returns, success_keyed_returns).
  assert (Hshape : forall m args kwargs wrap context,
    (wrap = success_data \/ exists key, wrap = success_keyed key) ->
    exists entries,
      fst (tool config m args kwargs wrap context ts) = Ok (VDict entries)
      /\ (assoc "success" entries = Some (VBool true)
          \/ (assoc "success" entries = Some (VBool false)
              /\ exists msg, assoc "error" entries = Some (VStr msg)))).
  { intros m args kwargs wrap context Hw. rewrite tool_caught.
    - unfold caught.
      destruct (call_api config m args kwargs (client ts)) as [[x|e] s']; cbn [fst].
      + destruct Hw as [-> | [key ->]]; eexists; split; try reflexivity; now left.
      + eexists. split; [reflexivity|]. right. cbn. eauto.
    - destruct Hw as [-> | [key ->]];
        auto using success_data_returns, success_keyed_returns. }
  destruct H as [[? ->] | [(? & ? & ->) | [[? ->] | [[? ->] | [[? ->] | [H | H]]]]]];
    [apply Hshape; eauto .. | | ].
  - destruct H as (? & ? & ? & ? & ? & ? & ? & ? & ? & ? & ? & ? & ? & ->).
    apply Hshape; eauto.
  - destruct H as (? & ? & ? & ? & ? & ? & ? & ? & ? & ->).
    apply Hshape; eauto.
Qed.

(** *** Tools that count the result *)

(** [len(x) if x else 0], value by value. *)
Lemma count_of_cases (x : value) :
  count_of x
  = match x with
    | VNone => Ok 0
    | VBool b =>
        if b then Raise (new_exc (OtherException "TypeError")
                           "object of type 'bool' has no len()")
        else Ok 0
    | VInt n =>
        if n =? 0 then Ok 0
        else Raise (new_exc (OtherException "TypeError")
                      "object of type 'int' has no len()")
    | VStr s => Ok (Z.of_nat (PyStr.len s))
    | VList items => Ok (Z.of_nat (length items))
    | VDict entries => Ok (Z.of_nat (length entries))
    end.
Proof.
  unfold count_of, truthy, py_len.
  destruct x as [|[|]|n|[|c s]|[|i l]|[|kv l]]; try reflexivity.
  now destruct (n =? 0).
Qed.

(** X16: the tools of [tasks.py] that count their result.  When the call
    returns a list, a dict or a string, the envelope carries its length;
    when it returns [None], [False] or zero, the count is 0; when it
    returns [True] or another integer, [len] raises a [TypeError], which
    the tool does not catch: it leaves the tool.  When the call raises,
    the tool returns the failure envelope. *)
Theorem counting_tools (ts : tool_state) (m : string) (args : list value)
    (kwargs : list (string * value)) (context : string) (run : T World Handle value) :
  (exists project_id status_id,
     run = getAllTasks config project_id status_id
     /\ m = "get_all_tasks"
     /\ args = match status_id with
               | Some st => [ VInt project_id; VInt st ]
               | None => [ VInt project_id ]
               end
     /\ kwargs = []
     /\ context = ("Error getting all tasks for project "
                   ++ PyStr.of_int project_id)%string)
  \/ (run = getOverdueTasks config /\ m = "get_overdue_tasks" /\ args = []
      /\ kwargs = [] /\ context = "Error getting overdue tasks"%string)
  \/ (exists project_id,
        run = getOverdueTasksByProject config project_id
        /\ m = "get_overdue_tasks_by_project" /\ args = [ VInt project_id ]
        /\ kwargs = []
        /\ context = ("Error getting overdue tasks for project "
                      ++ PyStr.of_int project_id)%string)
  \/ (exists project_id query category_id owner_id due_date status_id,
        run = searchTasks config project_id query category_id owner_id due_date
                status_id
        /\ m = "search_tasks" /\ args = []
        /\ kwargs = search_params project_id query category_id owner_id due_date
                      status_id
        /\ context = "Error searching tasks"%string) ->
  match call_api config m args kwargs (client ts) with
  | (Raise e, s') =>
      run ts
      = (Ok (failure e),
         mkToolState s' (tool_log ts ++ [ (ERROR, (context ++ ": " ++ exc_str e)%string) ]))
  | (Ok x, s') =>
      let counted (n : Z) :=
        (Ok (VDict [ ("success", VBool true); ("data", x); ("count", VInt n) ]),
         mkToolState s' (tool_log ts)) in
      let refused (type_name : string) :=
        (Raise (new_exc (OtherException "TypeError")
                  ("object of type '" ++ type_name ++ "' has no len()")%string),
         mkToolState s' (tool_log ts)) in
      run ts
      = match x with
        | VNone => counted 0
        | VBool b => if b then refused "bool"%string else counted 0
        | VInt n => if n =? 0 then counted 0 else refused "int"%string
        | VStr s => counted (Z.of_nat (PyStr.len s))
        | VList items => counted (Z.of_nat (length items))
        | VDict entries => counted (Z.of_nat (length entries))
        end
  end.
Proof.
  intros Hrun.
  assert (Htool : run ts = tool config m args kwargs success_data_count context ts).
  { destruct Hrun as [(p & st & -> & -> & -> & -> & ->)
                     | [(-> & -> & -> & -> & ->)
                     | [(p & -> & -> & -> & -> & ->)
                     | (p & q & c & o & d & st & -> & -> & -> & -> & ->)]]];
      reflexivity. }
  rewrite Htool. unfold tool.
  destruct (call_api config m args kwargs (client ts)) as [[x|e] s'] eqn:H.
  - cbv zeta. unfold success_data_count. rewrite count_of_cases.
    destruct x as [|[|]|n| | |]; try reflexivity.
    now destruct (n =? 0).
  - now rewrite (call_api_raises_own _ _ _ _ _ _ H).
Qed.

(** *** What the tools send *)

Lemma tool_client (m : string) (args : list value) (kwargs : list (string * value))
    (wrap : value -> result value) (context : string) (ts : tool_state) :
  client (snd (tool config m args kwargs wrap context ts))
  = snd (call_api config m args kwargs (client ts)).
Proof.
  unfold tool.
  destruct (call_api config m args kwargs (client ts)) as [[x|e] s']; cbn [snd].
  - destruct (wrap x) as [d|e]; [reflexivity|].
    now destruct (is_KanboardClientError e).
  - now destruct (is_KanboardClientError e).
Qed.

(** X18: what [getAllTasks] and [createTask] send.  Every invocation in a
    run of [getAllTasks] is of [get_all_tasks], with the project alone
    when no status was given and with project and status otherwise;
    every invocation in a run of [createTask] is of [create_task], with
    no positional argument and the task's data as keyword arguments.  At
    most [max_retries + 1] invocations are made. *)
Theorem task_tools_requests (ts : tool_state) :
  (forall project_id status_id,
     exists d,
       trace (client (snd (getAllTasks config project_id status_id ts)))
       = trace (client ts) ++ d
       /\ filter is_api_call d
          = repeat (EvInvoke ApiCall "get_all_tasks"
                      (match status_id with
                       | Some st => [ VInt project_id; VInt st ]
                       | None => [ VInt project_id ]
                       end) [])
              (invocations d)
       /\ (invocations d <= Z.to_nat (max_retries (server config) + 1))%nat)
  /\ (forall project_id title description category_id owner_id creator_id date_due
             color_id column_id swimlane_id priority reference tags,
        exists d,
          trace (client (snd (createTask config project_id title description
                                category_id owner_id creator_id date_due color_id
                                column_id swimlane_id priority reference tags ts)))
          = trace (client ts) ++ d
          /\ filter is_api_call d
             = repeat (EvInvoke ApiCall "create_task" []
                         (create_task_data project_id title description category_id
                            owner_id creator_id date_due color_id column_id
                            swimlane_id priority reference tags))
                 (invocations d)
          /\ (invocations d <= Z.to_nat (max_retries (server config) + 1))%nat).
Proof.
  assert (Hgen : forall m args kwargs wrap context,
    exists d,
      trace (client (snd (tool config m args kwargs wrap context ts)))
      = trace (client ts) ++ d
      /\ filter is_api_call d
         = repeat (EvInvoke ApiCall m args kwargs) (invocations d)
      /\ (invocations d <= Z.to_nat (max_retries (server config) + 1))%nat).
  { intros. rewrite tool_client.
    destruct (ClientMore.call_api_requests config m args kwargs (client ts))
      as (d & Ht & Hq).
    destruct (call_api_effects config m args kwargs (client ts))
      as (d' & Ht' & Hi' & _).
    rewrite Ht in Ht'. apply app_inv_head in Ht'. subst d'.
    exists d. auto. }
  split; intros; apply Hgen.
Qed.

(** *** The connection tools of the server *)

Lemma test_connection_returns (s : Client.state World Handle) :
  exists entries,
    fst (test_connection config s) = Ok (VDict entries)
    /\ assoc "connected" entries
       = Some (VBool match fst (call_api config "get_me" [] [] s) with
                     | Ok _ => true
                     | Raise _ => false
                     end).
Proof.
  unfold test_connection, try_except, bind, ret.
  destruct (call_api config "get_me" [] [] s) as [[v|e] s'];
    cbn [fst find is_Exception snd]; eexists; split; reflexivity.
Qed.

Lemma get_server_info_returns (s : Client.state World Handle) :
  exists entries, fst (get_server_info config s) = Ok (VDict entries).
Proof.
  unfold get_server_info, try_except, bind, ret.
  destruct (call_api config "get_me" [] [] s) as [[u|e] s1];
    [|eexists; reflexivity].
  destruct (call_api config "get_version" [] [] s1) as [[v|e] s2];
    eexists; reflexivity.
Qed.

(** X20: the connection tools always report success.  [test_connection]
    and [get_server_info] of the client never raise, so the tools of the
    server that wrap them always answer with [success] true and log
    nothing; a failed connection shows only inside the data, as
    [connected] false. *)
Theorem connection_tools_always_succeed (ts : tool_state) :
  (exists entries,
     test_connection_tool config ts
     = (Ok (VDict [ ("success", VBool true); ("data", VDict entries) ]),
        mkToolState (snd (test_connection config (client ts))) (tool_log ts))
     /\ assoc "connected" entries
        = Some (VBool match fst (call_api config "get_me" [] [] (client ts)) with
                      | Ok _ => true
                      | Raise _ => false
                      end))
  /\ (exists entries,
        get_server_info_tool config ts
        = (Ok (VDict [ ("success", VBool true); ("data", VDict entries) ]),
           mkToolState (snd (get_server_info config (client ts))) (tool_log ts))).
Proof.
  split.
  - destruct (test_connection_returns (client ts)) as (entries & H & Hc).
    exists entries. split; [|exact Hc].
    unfold test_connection_tool.
    destruct (test_connection config (client ts)) as [r s']. cbn [fst snd] in *.
    now rewrite H.
  - destruct (get_server_info_returns (client ts)) as (entries & H).
    exists entries. unfold get_server_info_tool.
    destruct (get_server_info config (client ts)) as [r s']. cbn [fst snd] in *.
    now rewrite H.
Qed.

(** *** Starting the server *)

(** X21: [run] serves only behind a passed connection test.  When the
    [get_me] call of the test returns, [run] logs three lines and hands
    over to the MCP server, adding a line to the log only if that raises.
    When the call raises, [run] raises a [ConnectionError] that carries
    the message of the call's error, after two error lines in the log,
    and the MCP server is not started: the outcome does not depend on
    it. *)
Theorem run_serves_only_when_connected (repr : value -> string)
    (mcp_run : T World Handle unit) (ts : tool_state) :
  let started :=
    tool_log ts
    ++ [ (INFO, ("Starting " ++ server_name (server config) ++ " v"
                 ++ server_version (server config))%string);
         (INFO, ("Connecting to Kanboard at " ++ url (kanboard config))%string) ] in
  match call_api config "get_me" [] [] (client ts) with
  | (Ok user, s') =>
      run config repr mcp_run ts
      = match mcp_run (mkToolState s'
                         (started ++ [ (INFO, "Successfully connected to Kanboard"%string) ]))
        with
        | (Ok u, ts') => (Ok u, ts')
        | (Raise e, ts') =>
            (Raise e,
             mkToolState (client ts')
               (tool_log ts' ++ [ (ERROR, ("Server error: " ++ exc_str e)%string) ]))
        end
  | (Raise e, s') =>
      let msg := ("Cannot connect to Kanboard: " ++ exc_str e)%string in
      run config repr mcp_run ts
      = (Raise (new_exc (OtherException "ConnectionError") msg),
         mkToolState s'
           (started
            ++ [ (ERROR, ("Failed to connect to Kanboard: " ++ exc_str e)%string);
                 (ERROR, ("Server error: " ++ msg)%string) ]))
  end.
Proof.
  cbv zeta.
  unfold run, tool_bind, info, error, on_client, tool_raise, log_error,
    test_connection, try_except, bind, ret.
  cbn [client tool_log].
  destruct (call_api config "get_me" [] [] (client ts)) as [[user|e] s'];
    cbn [find is_Exception fst snd value_get assoc String.eqb Ascii.eqb Bool.eqb
         truthy client tool_log format_value exc_str new_exc];
    unfold ret; cbn [client tool_log fst snd truthy];
    rewrite <- ?app_assoc; cbn [app].
  - destruct (mcp_run _) as [[u|e] ts']; reflexivity.
  - reflexivity.
Qed.

End WithTransport.

End ToolFacts.

(** ** Further concrete runs *)

Module MoreScenarios.

Import Config Client Tools ClientMore ConfigMore ToolFacts.
Local Open Scope list_scope.

(** The environment of a minimal deployment: the two required settings
    and nothing else. *)
Definition minimal_env : environ :=
  environ_of [ ("KANBOARD_URL", "http://h"); ("KANBOARD_API_TOKEN", "token") ].

Lemma session_ok_preserved_witness :
  let cfg := sample_config 3 1%float in
  let s := connected_client [ Ok no_projects ] in
  session_ok s
  /\ session_ok (snd (connect cfg s))
  /\ session_ok (snd (disconnect s))
  /\ (forall m args kwargs, session_ok (snd (call_api cfg m args kwargs s)))
  /\ session_ok (snd (test_connection cfg s))
  /\ session_ok (snd (get_server_info cfg s))
  /\ (forall (A : Type) (body : M script (list string) A),
        session_ok (snd (with_client cfg body s)))
  /\ (forall w : script, session_ok (create_client (Handle := list string) w)).
Proof.
  cbv zeta.
  assert (H : session_ok (connected_client [ Ok no_projects ]))
    by (intros _; discriminate).
  split; [exact H|].
  exact (session_ok_preserved (sample_config 3 1%float)
           (connected_client [ Ok no_projects ]) H).
Defined.

Lemma connect_not_repeated_witness :
  let cfg := sample_config 3 1%float in
  let s := init (Handle := list string) [ Ok admin ] in
  let s1 := snd (connect cfg s) in
  connect cfg s = (Ok tt, s1)
  /\ connect cfg s1 = (Ok tt, s1)
  /\ ensure_connected cfg s1 = (Ok tt, s1).
Proof.
  cbv zeta. split; [reflexivity|].
  apply (connect_not_repeated (sample_config 3 1%float)
           (init (Handle := list string) [ Ok admin ])).
  reflexivity.
Defined.

Lemma connect_error_classes_witness :
  let cfg := sample_config 3 1%float in
  let s := init (Handle := list string) [ Ok VNone ] in
  let e := new_exc KanboardConnectionError
             "Connection failed: Authentication failed - invalid credentials" in
  let s' := snd (connect cfg s) in
  connect cfg s = (Raise e, s')
  /\ (exc_cls e = KanboardAuthenticationError \/ exc_cls e = KanboardConnectionError)
  /\ _client s' = Some scripted_methods
  /\ _connected s' = false.
Proof.
  cbv zeta.
  pose proof (connect_error_classes (sample_config 3 1%float)
                (init (Handle := list string) [ Ok VNone ])
                (snd (connect (sample_config 3 1%float)
                        (init (Handle := list string) [ Ok VNone ])))
                (new_exc KanboardConnectionError
                   "Connection failed: Authentication failed - invalid credentials")
                eq_refl) as (Hcls & _ & Hnone).
  destruct (Hnone scripted_methods [ Ok VNone ] [] eq_refl eq_refl eq_refl)
    as (_ & Hc & Hf).
  split; [reflexivity|]. split; [exact Hcls|]. split; [exact Hc|exact Hf].
Defined.

Lemma call_api_returns_first_success_witness :
  let cfg := sample_config 3 0%float in
  let s := connected_client [ Raise connection_refused; Ok no_projects ] in
  exists s' d,
    call_api cfg "get_all_projects" [] [] s = (Ok no_projects, s')
    /\ trace s' = trace s ++ d
    /\ invocations d = 2%nat
    /\ sleeps d = 1%nat
    /\ reconnects d = 0%nat.
Proof.
  cbv zeta.
  apply (call_api_returns_first_success (sample_config 3 0%float)
           "get_all_projects" [] []
           (connected_client [ Raise connection_refused; Ok no_projects ])
           (connected_client [ Raise connection_refused; Ok no_projects ])
           scripted_methods [ Raise connection_refused ] no_projects).
  - reflexivity.
  - reflexivity.
  - reflexivity.
  - reflexivity.
  - reflexivity.
  - reflexivity.
  - cbn. lia.
Defined.

Lemma call_api_terminal_after_retries_witness :
  let cfg := sample_config 3 0%float in
  let s := connected_client
             [ Raise connection_refused; Raise not_found; Ok no_projects ] in
  exists s' d,
    call_api cfg "get_all_projects" [] [] s
    = (Raise (new_exc KanboardAPIError "API error: Project not found"), s')
    /\ trace s' = trace s ++ d
    /\ invocations d = 2%nat
    /\ sleeps d = 1%nat
    /\ reconnects d = 0%nat.
Proof.
  cbv zeta.
  apply (call_api_terminal_after_retries (sample_config 3 0%float)
           "get_all_projects" [] []
           (connected_client
              [ Raise connection_refused; Raise not_found; Ok no_projects ])
           (connected_client
              [ Raise connection_refused; Raise not_found; Ok no_projects ])
           scripted_methods [ Raise connection_refused ] not_found).
  - reflexivity.
  - reflexivity.
  - reflexivity.
  - reflexivity.
  - reflexivity.
  - reflexivity.
  - reflexivity.
  - right. reflexivity.
  - cbn. lia.
Defined.

Lemma validate_config_redundant_witness :
  let c := mkConfig
             (mkKanboardConfig "http://h/jsonrpc.php" "jsonrpc" "token" None true 30)
             (mkMCPServerConfig "Kanboard MCP Server" "0.1.0" false 3 1%float) in
  from_env sample_int_of_str sample_float_of_str sample_validation_message
    minimal_env = Ok c
  /\ validate_config c = Ok tt
  /\ load_config sample_int_of_str sample_float_of_str sample_validation_message
       minimal_env = Ok c.
Proof.
  cbv zeta. split; [reflexivity|].
  apply (validate_config_redundant sample_int_of_str sample_float_of_str
           sample_validation_message minimal_env).
  reflexivity.
Defined.

Lemma load_config_result_witness :
  let c := mkConfig
             (mkKanboardConfig "http://h/jsonrpc.php" "jsonrpc" "token" None true 30)
             (mkMCPServerConfig "Kanboard MCP Server" "0.1.0" false 3 1%float) in
  load_config sample_int_of_str sample_float_of_str sample_validation_message
    minimal_env = Ok c
  /\ validate_url (getenv minimal_env "KANBOARD_URL" "") = Ok (url (kanboard c))
  /\ PyStr.endswith "/jsonrpc.php" (url (kanboard c)) = true
  /\ has_http_scheme (url (kanboard c)) = true
  /\ password (kanboard c) = getenv minimal_env "KANBOARD_API_TOKEN" ""
  /\ password (kanboard c) <> ""
  /\ 0 < timeout (kanboard c)
  /\ 0 <= max_retries (server c)
  /\ PrimFloat.ltb (retry_delay (server c)) 0%float = false
  /\ verify_ssl (kanboard c)
     = String.eqb (PyStr.lower (getenv minimal_env "KANBOARD_VERIFY_SSL" "true")) "true"
  /\ debug (server c)
     = String.eqb (PyStr.lower (getenv minimal_env "DEBUG" "false")) "true"
  /\ auth_header (kanboard c) = minimal_env "KANBOARD_AUTH_HEADER".
Proof.
  cbv zeta. split; [reflexivity|].
  apply (load_config_result sample_int_of_str sample_float_of_str
           sample_validation_message minimal_env).
  reflexivity.
Defined.

Lemma load_config_requires_url_and_token_witness :
  let env := environ_of [ ("KANBOARD_URL", "http://h") ] in
  getenv env "KANBOARD_API_TOKEN" "" = ""
  /\ exists e,
       load_config sample_int_of_str sample_float_of_str sample_validation_message
         env = Raise e
       /\ exc_cls e = ValueError
       /\ PyStr.startswith "Configuration error: " (exc_str e) = true.
Proof.
  cbv zeta. split; [reflexivity|].
  apply (load_config_requires_url_and_token sample_int_of_str sample_float_of_str
           sample_validation_message (environ_of [ ("KANBOARD_URL", "http://h") ])).
  right. reflexivity.
Defined.

Lemma minimal_env_unset (name : string) :
  name <> "KANBOARD_URL"%string -> name <> "KANBOARD_API_TOKEN"%string ->
  minimal_env name = None.
Proof.
  intros Hu Ht. unfold minimal_env, environ_of. cbn [find fst snd].
  destruct (String.eqb_spec "KANBOARD_URL" name) as [E|_];
    [now elim Hu|].
  destruct (String.eqb_spec "KANBOARD_API_TOKEN" name) as [E|_];
    [now elim Ht|].
  reflexivity.
Defined.

Lemma load_config_defaults_witness :
  load_config sample_int_of_str sample_float_of_str sample_validation_message
    minimal_env
  = Ok (mkConfig
          (mkKanboardConfig "http://h/jsonrpc.php" "jsonrpc" "token" None true 30)
          (mkMCPServerConfig "Kanboard MCP Server" "0.1.0" false 3 1%float)).
Proof.
  destruct (load_config_defaults sample_int_of_str sample_float_of_str
              sample_validation_message minimal_env "http://h" "token"
              eq_refl eq_refl eq_refl eq_refl eq_refl minimal_env_unset eq_refl)
    as (u & Hu & Hload).
  - discriminate.
  - injection Hu as <-. exact Hload.
Defined.

Lemma counting_tools_witness :
  let cfg := sample_config 3 0%float in
  let tasks := VList [ VDict [ ("id", VInt 1) ]; VDict [ ("id", VInt 2) ] ] in
  getAllTasks (transport := any_method) cfg 7 None (connected_tools [ Ok tasks ])
  = (Ok (VDict [ ("success", VBool true); ("data", tasks); ("count", VInt 2) ]),
     mkToolState
       (snd (call_api (transport := any_method) cfg "get_all_tasks" [ VInt 7 ] []
               (client (connected_tools [ Ok tasks ]))))
       [])
  /\ getAllTasks (transport := any_method) cfg 7 None
       (connected_tools [ Ok (VBool true) ])
     = (Raise (new_exc (OtherException "TypeError")
                 "object of type 'bool' has no len()"),
        mkToolState
          (snd (call_api (transport := any_method) cfg "get_all_tasks" [ VInt 7 ] []
                  (client (connected_tools [ Ok (VBool true) ]))))
          []).
Proof.
  cbv zeta. split.
  - exact (counting_tools (transport := any_method) (sample_config 3 0%float)
             (connected_tools
                [ Ok (VList [ VDict [ ("id", VInt 1) ]; VDict [ ("id", VInt 2) ] ]) ])
             "get_all_tasks" [ VInt 7 ] []
             ("Error getting all tasks for project " ++ PyStr.of_int 7)%string
             (getAllTasks (transport := any_method) (sample_config 3 0%float) 7 None)
             (or_introl (ex_intro _ 7 (ex_intro _ None
                (conj eq_refl (conj eq_refl (conj eq_refl (conj eq_refl eq_refl)))))))).
  - exact (counting_tools (transport := any_method) (sample_config 3 0%float)
             (connected_tools [ Ok (VBool true) ])
             "get_all_tasks" [ VInt 7 ] []
             ("Error getting all tasks for project " ++ PyStr.of_int 7)%string
             (getAllTasks (transport := any_method) (sample_config 3 0%float) 7 None)
             (or_introl (ex_intro _ 7 (ex_intro _ None
                (conj eq_refl (conj eq_refl (conj eq_refl (conj eq_refl eq_refl)))))))).
Defined.

End MoreScenarios.
